(** * WatchDog: a liveness-supervision registry

    Shallow embedding of
    [packages/node-opcua-utils/source/watchdog.ts] and the properties of
    its subscription bookkeeping, keep-alive protocol and periodic sweep.

    Modelling conventions.
    - JavaScript objects live in a store: [WatchDog] instances, subscriber
      objects and [IWatchdogData2] records are addressed by references, so
      that [subscriber._watchDogData] and [this._watchdogDataMap[key]] are
      one shared object, as in the source.
    - Clock ticks and timeouts are JavaScript numbers: IEEE 754 binary64,
      here Rocq's primitive [float].  Keys and visit counts are JavaScript
      numbers that only ever hold the integers 0, 1, 2, ... reached by
      [+= 1]; they are modelled by [N].  Binary64 is exact on them up to
      2^53, where [+= 1] stops counting ([counter_stops_at_2_53]): what is
      proved of a key being new carries the bound
      [_counter <= MAX_SAFE_INTEGER].
    - [throw] and a failed [assert] abort the running method; the store
      keeps the writes made before the failure.  Nothing in the source
      catches an exception.
    - The subscriber's callbacks ([watchdogReset], [onClientSeen]) and the
      listeners of the "timeout" event belong to the host program.  They
      are parameters of the model ([Host]): code that runs on the whole
      store, may return or throw, and may write anything, the registry
      included (a callback that calls back into the registry does).
      [Handlers] are the hosts whose callbacks return normally and update
      only the host's own state [env]; [reentry_free] are those whose
      callbacks, returning or throwing, write only [env].  Every outbound
      call is appended to [calls] when it ends. *)

From Stdlib Require Import ZArith NArith List Bool Lia.
From Stdlib Require Import Floats.
From stdpp Require Import gmap strings list sorting.

Local Open Scope N_scope.

(** ** JavaScript values passed as [timeout] *)

Inductive JsValue :=
| JUndefined
| JNumber (n : float)
| JString (s : string).

(** [ToBoolean]: [undefined], [+0], [-0], [NaN] and the empty string are falsy. *)
Definition truthy (v : JsValue) : bool :=
  match v with
  | JUndefined => false
  | JNumber n => negb (PrimFloat.is_zero n || PrimFloat.is_nan n)
  | JString s => negb (String.eqb s "")
  end.

(** [a || b] *)
Definition js_or (a b : JsValue) : JsValue := if truthy a then a else b.

(** [_.isNumber] (true for [NaN] and the infinities too) *)
Definition isNumber (v : JsValue) : bool :=
  match v with JNumber _ => true | _ => false end.

(** The largest integer below which [+= 1] counts exactly. *)
Definition MAX_SAFE_INTEGER : N := 2 ^ 53 - 1.

(** Binary64 counts up to 2^53 and stays there. *)
Example counter_stops_at_2_53 :
  (9007199254740991 + 1 =? 9007199254740992)%float = true ∧
  (9007199254740992 + 1 =? 9007199254740992)%float = true.
Proof. split; vm_compute; reflexivity. Qed.

(** ** Data model *)

Record IWatchdogData2 := {
  key : N;
  subscriber : N;            (* reference to the ISubscriber *)
  timeout : float;
  lastSeen : float;
  visitCount : N
}.

Record ISubscriber := {
  _watchDog : option N;      (* reference to a WatchDog *)
  _watchDogData : option N;  (* reference to an IWatchdogData2 *)
  watchdogReset : bool;      (* the member is a function *)
  keepAlive : option N;      (* keepAliveFunc bound to that subscriber *)
  onClientSeen : bool        (* the optional member is present *)
}.

(** The handle returned by [setInterval(callback, ms)]; the callback is
    [_visit_subscriber] bound to the watchdog [timer_this]. *)
Record Timer := setInterval { timer_this : N; timer_ms : N }.

Record WatchDog := {
  _watchdogDataMap : list (N * N);   (* key |-> reference, in key order *)
  _counter : N;
  _currentTime : float;
  _timer : option Timer
}.

Inductive Call :=
| CallTimeout (expiredSubscribers : list N)   (* emit("timeout", ...) *)
| CallWatchdogReset (sub : N)
| CallOnClientSeen (sub : N).

Record World (E : Type) := {
  watchdogs : gmap N WatchDog;
  subscribers : gmap N ISubscriber;
  heap : gmap N IWatchdogData2;
  now : float;                (* what the system tick reads *)
  calls : list Call;
  env : E
}.
Arguments watchdogs {E} _.
Arguments subscribers {E} _.
Arguments heap {E} _.
Arguments now {E} _.
Arguments calls {E} _.
Arguments env {E} _.

(** The hosts whose callbacks return normally and update only the host's
    own state: what each callback makes [env], from what it reads in the
    store. *)
Record Handlers (E : Type) := {
  timeout_listener : list N -> World E -> E;
  watchdogReset_impl : N -> World E -> E;
  onClientSeen_impl : N -> World E -> E
}.
Arguments timeout_listener {E} _.
Arguments watchdogReset_impl {E} _.
Arguments onClientSeen_impl {E} _.

(** ** Objects keyed by integers

    Own integer keys of a JavaScript object are enumerated in ascending
    order; assignment to an existing key keeps its place. *)

Fixpoint obj_set (k v : N) (m : list (N * N)) : list (N * N) :=
  match m with
  | [] => [(k, v)]
  | (k', v') :: m' =>
      if k <? k' then (k, v) :: m
      else if k =? k' then (k, v) :: m'
      else (k', v') :: obj_set k v m'
  end.

Definition obj_delete (k : N) (m : list (N * N)) : list (N * N) :=
  filter (fun p => fst p ≠ k) m.

Definition hasOwnProperty (m : list (N * N)) (k : N) : bool :=
  existsb (fun p => fst p =? k) m.

Definition Object_keys (m : list (N * N)) : list N := map fst m.
Definition Object_values (m : list (N * N)) : list N := map snd m.

(** ** Store updates *)

Section Store.
Context {E : Type}.

Definition set_watchdogs (f : gmap N WatchDog -> gmap N WatchDog) (w : World E) : World E :=
  {| watchdogs := f (watchdogs w); subscribers := subscribers w; heap := heap w;
     now := now w; calls := calls w; env := env w |}.

Definition set_subscribers (f : gmap N ISubscriber -> gmap N ISubscriber) (w : World E) : World E :=
  {| watchdogs := watchdogs w; subscribers := f (subscribers w); heap := heap w;
     now := now w; calls := calls w; env := env w |}.

Definition set_heap (f : gmap N IWatchdogData2 -> gmap N IWatchdogData2) (w : World E) : World E :=
  {| watchdogs := watchdogs w; subscribers := subscribers w; heap := f (heap w);
     now := now w; calls := calls w; env := env w |}.

Definition set_now (t : float) (w : World E) : World E :=
  {| watchdogs := watchdogs w; subscribers := subscribers w; heap := heap w;
     now := t; calls := calls w; env := env w |}.

Definition set_env (e : E) (w : World E) : World E :=
  {| watchdogs := watchdogs w; subscribers := subscribers w; heap := heap w;
     now := now w; calls := calls w; env := e |}.

Definition log_call (c : Call) (w : World E) : World E :=
  {| watchdogs := watchdogs w; subscribers := subscribers w; heap := heap w;
     now := now w; calls := calls w ++ [c]; env := env w |}.

(** The store after the call [c] to a callback that has only set the
    host's state to [e]. *)
Definition record_call (c : Call) (e : E) (w : World E) : World E :=
  {| watchdogs := watchdogs w; subscribers := subscribers w; heap := heap w;
     now := now w; calls := calls w ++ [c]; env := e |}.

End Store.

(** ** Methods run in a state-and-exception monad *)

Inductive JsError :=
| AssertionError (msg : string)    (* a failed assert(...) *)
| Error (msg : string)             (* throw new Error(msg) *)
| TypeError (msg : string).        (* member access through a missing object, call of a non-function *)

Inductive Result (E A : Type) :=
| Ok (a : A) (w : World E)
| Throw (e : JsError) (w : World E).
Arguments Ok {E A} _ _.
Arguments Throw {E A} _ _.

Definition final {E A} (r : Result E A) : World E :=
  match r with Ok _ w => w | Throw _ w => w end.

Definition M (E A : Type) : Type := World E -> Result E A.

Definition ret {E A} (a : A) : M E A := fun w => Ok a w.

Definition bind {E A B} (c : M E A) (k : A -> M E B) : M E B :=
  fun w => match c w with
           | Ok a w' => k a w'
           | Throw e w' => Throw e w'
           end.

Definition throw {E A} (e : JsError) : M E A := fun w => Throw e w.

Notation "'let*' x ':=' c 'in' k" := (bind c (fun x => k))
  (at level 10, x name, c at level 100, k at level 200).
Notation "c ';;;' k" := (bind c (fun _ => k))
  (at level 100, k at level 200, right associativity).

(** ** The host program

    The code behind the listeners of "timeout" and behind the
    subscribers' [watchdogReset] and [onClientSeen]: each is a command on
    the store. *)
Record Host (E : Type) := {
  run_timeout_listeners : list N -> M E unit;   (* the listeners of "timeout", in turn *)
  run_watchdogReset : N -> M E unit;            (* subscriber.watchdogReset() *)
  run_onClientSeen : N -> M E unit              (* subscriber.onClientSeen() *)
}.
Arguments run_timeout_listeners {E} _.
Arguments run_watchdogReset {E} _.
Arguments run_onClientSeen {E} _.

(** A callback that returns normally and has only updated the host's own
    state, from what it reads in the store. *)
Definition quietly {E} (f : World E -> E) : M E unit :=
  fun w => Ok tt (set_env (f w) w).

(** [Handlers] as hosts *)
Definition quiet {E} (H : Handlers E) : Host E :=
  {| run_timeout_listeners := fun batch => quietly (timeout_listener H batch);
     run_watchdogReset := fun s => quietly (watchdogReset_impl H s);
     run_onClientSeen := fun s => quietly (onClientSeen_impl H s) |}.
Coercion quiet : Handlers >-> Host.

(** A callback that does not call back into the registry: whether it
    returns or throws, it has written nothing but the host's own state. *)
Definition outside {E} (c : M E unit) : Prop :=
  forall w, final (c w) = set_env (env (final (c w))) w.

Definition reentry_free {E} (h : Host E) : Prop :=
  (forall batch, outside (run_timeout_listeners h batch)) /\
  (forall s, outside (run_watchdogReset h s)) /\
  (forall s, outside (run_onClientSeen h s)).

(** What a host does to its own state when its callbacks return. *)
Definition shadow {E} (h : Host E) : Handlers E :=
  {| timeout_listener := fun batch w => env (final (run_timeout_listeners h batch w));
     watchdogReset_impl := fun s w => env (final (run_watchdogReset h s w));
     onClientSeen_impl := fun s w => env (final (run_onClientSeen h s w)) |}.

Section Methods.
Context {E : Type} (H : Host E).

Definition modify (f : World E -> World E) : M E unit := fun w => Ok tt (f w).

(** Modelled from the spec: [assert] of node-opcua-assert is not among the
    sources; the spec treats a violated assertion as a fatal error
    "raised synchronously to the caller". *)
Definition assert (cond : bool) (msg : string) : M E unit :=
  if cond then ret tt else throw (AssertionError msg).

(** Reading a member through a reference *)
Definition the_watchdog (this : N) : M E WatchDog := fun w =>
  match watchdogs w !! this with
  | Some wd => Ok wd w
  | None => Throw (TypeError "not a WatchDog") w
  end.

Definition the_subscriber (s : N) : M E ISubscriber := fun w =>
  match subscribers w !! s with
  | Some sub => Ok sub w
  | None => Throw (TypeError "not a subscriber") w
  end.

Definition the_data (d : N) : M E IWatchdogData2 := fun w =>
  match heap w !! d with
  | Some data => Ok data w
  | None => Throw (TypeError "not a watchdog data") w
  end.

(** Writing a member through a reference *)
Definition update_watchdog (this : N) (f : WatchDog -> WatchDog) : M E unit :=
  let* wd := the_watchdog this in
  modify (set_watchdogs (insert this (f wd))).

Definition update_subscriber (s : N) (f : ISubscriber -> ISubscriber) : M E unit :=
  let* sub := the_subscriber s in
  modify (set_subscribers (insert s (f sub))).

Definition update_data (d : N) (f : IWatchdogData2 -> IWatchdogData2) : M E unit :=
  let* data := the_data d in
  modify (set_heap (insert d (f data))).

(** A new object literal: the record is stored at a fresh reference. *)
Definition new_object (data : IWatchdogData2) : M E N :=
  fun w =>
    let d := fresh (dom (heap w)) in
    Ok d (set_heap (insert d data) w).

(** An outbound call to the host program: its code runs, and the call is
    appended to the trace, whether it returns or throws. *)
Definition call_out (c : Call) (h : M E unit) : M E unit :=
  fun w => match h w with
           | Ok _ w' => Ok tt (log_call c w')
           | Throw e w' => Throw e (log_call c w')
           end.

(** *** The system tick *)

(** [_getCurrentSystemTick] reads [process.hrtime()] (or [Date.now()]):
    an input of the model, [now]. *)
Definition _getCurrentSystemTick : M E float := fun w => Ok (now w) w.

(** [hasExpired(watchDogData, currentTime)] *)
Definition hasExpired (watchDogData : IWatchdogData2) (currentTime : float) : bool :=
  let elapsedTime := (currentTime - lastSeen watchDogData)%float in
  (timeout watchDogData <? elapsedTime)%float.

(** *** class WatchDog *)

(** [get subscriberCount()] *)
Definition subscriberCount (this : N) : M E N :=
  let* wd := the_watchdog this in
  ret (N.of_nat (length (Object_keys (_watchdogDataMap wd)))).

(** [getCurrentSystemTick()] *)
Definition getCurrentSystemTick (this : N) : M E float :=
  _getCurrentSystemTick.

(** [new WatchDog()] *)
Definition new_WatchDog : M E N :=
  fun w =>
    let this := fresh (dom (watchdogs w)) in
    Ok this (set_watchdogs (insert this
      {| _watchdogDataMap := []; _counter := 0; _currentTime := now w; _timer := None |}) w).

Definition set_currentTime (t : float) (wd : WatchDog) : WatchDog :=
  {| _watchdogDataMap := _watchdogDataMap wd; _counter := _counter wd;
     _currentTime := t; _timer := _timer wd |}.

Definition set_counter (c : N) (wd : WatchDog) : WatchDog :=
  {| _watchdogDataMap := _watchdogDataMap wd; _counter := c;
     _currentTime := _currentTime wd; _timer := _timer wd |}.

Definition set_dataMap (m : list (N * N)) (wd : WatchDog) : WatchDog :=
  {| _watchdogDataMap := m; _counter := _counter wd;
     _currentTime := _currentTime wd; _timer := _timer wd |}.

Definition set_timer (t : option Timer) (wd : WatchDog) : WatchDog :=
  {| _watchdogDataMap := _watchdogDataMap wd; _counter := _counter wd;
     _currentTime := _currentTime wd; _timer := t |}.

(** Member updates of a subscriber and of its watchdog data *)
Definition attach (this d : N) (sub : ISubscriber) : ISubscriber :=
  {| _watchDog := Some this; _watchDogData := Some d;
     watchdogReset := watchdogReset sub; keepAlive := keepAlive sub;
     onClientSeen := onClientSeen sub |}.

Definition set_keepAlive (f : option N) (sub : ISubscriber) : ISubscriber :=
  {| _watchDog := _watchDog sub; _watchDogData := _watchDogData sub;
     watchdogReset := watchdogReset sub; keepAlive := f;
     onClientSeen := onClientSeen sub |}.

(** [delete] of [_watchDog], [_watchDogData] and [keepAlive] *)
Definition detach (sub : ISubscriber) : ISubscriber :=
  {| _watchDog := None; _watchDogData := None;
     watchdogReset := watchdogReset sub; keepAlive := None;
     onClientSeen := onClientSeen sub |}.

Definition set_lastSeen (t : float) (data : IWatchdogData2) : IWatchdogData2 :=
  {| key := key data; subscriber := subscriber data; timeout := timeout data;
     lastSeen := t; visitCount := visitCount data |}.

(** [watchDogData.visitCount += 1] *)
Definition count_visit (data : IWatchdogData2) : IWatchdogData2 :=
  {| key := key data; subscriber := subscriber data; timeout := timeout data;
     lastSeen := lastSeen data; visitCount := visitCount data + 1 |}.

(** [_start_timer()] *)
Definition _start_timer (this : N) : M E unit :=
  let* wd := the_watchdog this in
  assert (bool_decide (_timer wd = None)) " setInterval already called ?" ;;;
  update_watchdog this (set_timer (Some (setInterval this 1000))).

(** [_stop_timer()] *)
Definition _stop_timer (this : N) : M E unit :=
  let* wd := the_watchdog this in
  assert (bool_decide (_timer wd ≠ None)) "_stop_timer already called ?" ;;;
  let* wd := the_watchdog this in
  if bool_decide (_timer wd ≠ None)
  then update_watchdog this (set_timer None)   (* clearInterval; this._timer = null *)
  else ret tt.

(** [keepAliveFunc], with [this] the subscriber it is bound to *)
Definition keepAliveFunc (this : N) : M E unit :=
  let* sub := the_subscriber this in
  assert (bool_decide (is_Some (_watchDog sub))) "" ;;;
  match _watchDogData sub, _watchDog sub with
  | Some d, Some wd =>
      let* data := the_data d in        (* _.isNumber(this._watchDogData.key) holds of every key *)
      let* t := getCurrentSystemTick wd in
      update_data d (set_lastSeen t) ;;;
      if onClientSeen sub
      then call_out (CallOnClientSeen this) (run_onClientSeen H this)
      else ret tt
  | _, _ => throw (Error "Internal error")
  end.

(** [subscriber.keepAlive()] *)
Definition call_keepAlive (s : N) : M E unit :=
  let* sub := the_subscriber s in
  match keepAlive sub with
  | Some this => keepAliveFunc this
  | None => throw (TypeError "subscriber.keepAlive is not a function")
  end.

(** [addSubscriber(subscriber, timeout)] *)
Definition addSubscriber (this : N) (subscriber : N) (timeout : JsValue) : M E N :=
  let* t := getCurrentSystemTick this in
  update_watchdog this (set_currentTime t) ;;;
  let timeout := js_or timeout (JNumber 1000) in
  assert (isNumber timeout) " invalid timeout " ;;;
  let* sub := the_subscriber subscriber in
  assert (watchdogReset sub) " the subscriber must provide a watchdogReset method " ;;;
  assert (negb (bool_decide (is_Some (keepAlive sub)))) "" ;;;
  let* wd := the_watchdog this in
  update_watchdog this (set_counter (_counter wd + 1)) ;;;
  let* wd := the_watchdog this in
  let key := _counter wd in
  let* d := new_object
    {| key := key;
       lastSeen := _currentTime wd;
       subscriber := subscriber;
       timeout := match timeout with JNumber n => n | _ => nan end;  (* a number, by the assertion *)
       visitCount := 0 |} in
  update_subscriber subscriber (attach this d) ;;;
  update_watchdog this (fun wd => set_dataMap (obj_set key d (_watchdogDataMap wd)) wd) ;;;
  (if onClientSeen sub
   then call_out (CallOnClientSeen subscriber) (run_onClientSeen H subscriber)
   else ret tt) ;;;
  update_subscriber subscriber (set_keepAlive (Some subscriber)) ;;;
  let* n := subscriberCount this in
  (if n =? 1
   then (let* wd := the_watchdog this in
         assert (bool_decide (_timer wd = None)) "" ;;;
         _start_timer this)
   else ret tt) ;;;
  let* wd := the_watchdog this in
  assert (bool_decide (_timer wd ≠ None)) "" ;;;
  ret key.

(** [removeSubscriber(subscriber)] *)
Definition removeSubscriber (this : N) (subscriber : N) : M E unit :=
  let* sub := the_subscriber subscriber in
  match _watchDog sub with
  | None => ret tt                        (* already removed !!! *)
  | Some _ =>
      match _watchDogData sub with
      | None => throw (Error "Internal error")
      | Some d =>
          (* subscriber._watchDog instanceof WatchDog: every reference is one *)
          let* data := the_data d in      (* _.isNumber(key) holds of every key *)
          assert (bool_decide (is_Some (keepAlive sub))) "" ;;;
          let* wd := the_watchdog this in
          assert (hasOwnProperty (_watchdogDataMap wd) (key data)) "" ;;;
          update_watchdog this (fun wd =>
            set_dataMap (obj_delete (key data) (_watchdogDataMap wd)) wd) ;;;
          update_subscriber subscriber detach ;;;
          let* n := subscriberCount this in
          if n =? 0 then _stop_timer this else ret tt
      end
  end.

(** [shutdown()] *)
Definition shutdown (this : N) : M E unit :=
  let* wd := the_watchdog this in
  assert (bool_decide (_timer wd = None)
          && (length (Object_keys (_watchdogDataMap wd)) =? 0)%nat)
         " leaking subscriber in watchdog".

(** [_.filter(list, predicate)] of underscore, over the values of an object *)
Fixpoint _filter (values : list N) (predicate : N -> M E bool) : M E (list N) :=
  match values with
  | [] => ret []
  | v :: rest =>
      let* keep := predicate v in
      let* kept := _filter rest predicate in
      ret (if keep then v :: kept else kept)
  end.

(** [array.forEach(callback)] *)
Fixpoint forEach (array : list N) (callback : N -> M E unit) : M E unit :=
  match array with
  | [] => ret tt
  | v :: rest => callback v ;;; forEach rest callback
  end.

(** The predicate of the sweep: count the visit, then classify. *)
Definition visit_one (this : N) (d : N) : M E bool :=
  update_data d count_visit ;;;
  let* watchDogData := the_data d in
  let* wd := the_watchdog this in
  ret (hasExpired watchDogData (_currentTime wd)).

(** [this.emit("timeout", expiredSubscribers)] *)
Definition emit_timeout (expiredSubscribers : list N) : M E unit :=
  call_out (CallTimeout expiredSubscribers) (run_timeout_listeners H expiredSubscribers).

(** The body of the eviction loop *)
Definition evict_one (this : N) (d : N) : M E unit :=
  let* watchDogData := the_data d in
  removeSubscriber this (subscriber watchDogData) ;;;
  let* sub := the_subscriber (subscriber watchDogData) in
  if watchdogReset sub
  then call_out (CallWatchdogReset (subscriber watchDogData))
                (run_watchdogReset H (subscriber watchDogData))
  else throw (TypeError "watchdogReset is not a function").

(** [_visit_subscriber()], the sweep that the timer runs *)
Definition _visit_subscriber (this : N) : M E unit :=
  let* t := getCurrentSystemTick this in
  update_watchdog this (set_currentTime t) ;;;
  let* wd := the_watchdog this in
  let* expiredSubscribers :=
    _filter (Object_values (_watchdogDataMap wd)) (visit_one this) in
  (if negb (length expiredSubscribers =? 0)%nat
   then emit_timeout expiredSubscribers
   else ret tt) ;;;
  forEach expiredSubscribers (evict_one this).

End Methods.

(** ** Host-side actions used to build stores *)

Section Host.
Context {E : Type}.

Definition empty_world (e : E) : World E :=
  {| watchdogs := ∅; subscribers := ∅; heap := ∅; now := 0%float; calls := []; env := e |}.

(** A fresh subscriber object that is not registered anywhere. *)
Definition new_subscriber (reset seen : bool) : M E N :=
  fun w =>
    let s := fresh (dom (subscribers w)) in
    Ok s (set_subscribers (insert s
      {| _watchDog := None; _watchDogData := None; watchdogReset := reset;
         keepAlive := None; onClientSeen := seen |}) w).

(** Time passes: the system tick now reads [t]. *)
Definition clock_reads (t : float) : M E unit := modify (set_now t).

End Host.

(** ** Well-formed registries *)

Section Invariants.
Context {E : Type}.

(** The sweep timer exists exactly when the table is not empty. *)
Definition timer_ok (wd : WatchDog) : Prop :=
  is_Some (_timer wd) ↔ (0 < length (Object_keys (_watchdogDataMap wd)))%nat.

Definition timers_ok (w : World E) : Prop :=
  ∀ this wd, watchdogs w !! this = Some wd → timer_ok wd.

(** A table entry and the subscriber it belongs to point at each other. *)
Definition entry_ok (w : World E) (this : N) (p : N * N) : Prop :=
  ∃ data sub,
    heap w !! p.2 = Some data ∧ key data = p.1 ∧
    subscribers w !! subscriber data = Some sub ∧
    _watchDog sub = Some this ∧ _watchDogData sub = Some p.2 ∧
    is_Some (keepAlive sub) ∧ watchdogReset sub = true.

Definition wf (w : World E) (this : N) : Prop :=
  ∃ wd, watchdogs w !! this = Some wd ∧
        NoDup (Object_keys (_watchdogDataMap wd)) ∧
        Forall (entry_ok w this) (_watchdogDataMap wd) ∧
        timer_ok wd.

End Invariants.

(** ** Running the monad *)

Section Run.
Context {E : Type}.
Implicit Types (w : World E).

Lemma bind_Ok {A B} (c : M E A) (k : A -> M E B) w a w' :
  c w = Ok a w' → bind c k w = k a w'.
Proof. unfold bind. by intros ->. Qed.


Lemma the_subscriber_Ok s sub w :
  subscribers w !! s = Some sub → the_subscriber s w = Ok sub w.
Proof. unfold the_subscriber. by intros ->. Qed.

Lemma the_watchdog_Ok this wd w :
  watchdogs w !! this = Some wd → the_watchdog this w = Ok wd w.
Proof. unfold the_watchdog. by intros ->. Qed.

Lemma the_data_Ok d data w :
  heap w !! d = Some data → the_data d w = Ok data w.
Proof. unfold the_data. by intros ->. Qed.

Lemma assert_true msg w : assert true msg w = Ok tt w.
Proof. reflexivity. Qed.

Lemma assert_false msg w : assert false msg w = Throw (AssertionError msg) w.
Proof. reflexivity. Qed.

Lemma outside_quietly (f : World E → E) : outside (quietly f).
Proof. intros w. reflexivity. Qed.

Lemma quiet_reentry_free (H : Handlers E) : reentry_free (quiet H).
Proof. repeat split; intros ?; apply outside_quietly. Qed.

(** What a call leaves when the callback does not call back. *)
Lemma call_out_outside c (cb : M E unit) w :
  outside cb →
  final (call_out c cb w) = record_call c (env (final (cb w))) w.
Proof.
  intros Ho. unfold call_out. specialize (Ho w).
  destruct (cb w) as [[] w'|e w']; cbn [final] in *; by rewrite Ho.
Qed.

End Run.

(** [keeps R c]: whatever the outcome of [c], normal or exceptional, the
    store it leaves is related to the one it started from. *)
Section Keeps.
Context {E : Type} (R : relation (World E)) `{!PreOrder R}.

Definition keeps {A} (c : M E A) : Prop := ∀ w, R w (final (c w)).

Lemma keeps_ret {A} (a : A) : keeps (ret a).
Proof. intros w. reflexivity. Qed.

Lemma keeps_throw {A} e : keeps (@throw E A e).
Proof. intros w. reflexivity. Qed.

Lemma keeps_bind {A B} (c : M E A) (k : A -> M E B) :
  keeps c → (∀ a, keeps (k a)) → keeps (bind c k).
Proof.
  intros Hc Hk w. unfold bind. specialize (Hc w).
  destruct (c w) as [a w'|e w']; [|done].
  etrans; [exact Hc | apply Hk].
Qed.

Lemma keeps_assert b msg : keeps (assert (E:=E) b msg).
Proof. destruct b; [apply keeps_ret | apply keeps_throw]. Qed.

Lemma keeps_the_watchdog this : keeps (the_watchdog this).
Proof. intros w. unfold the_watchdog. by destruct (_ !! _). Qed.

Lemma keeps_the_subscriber s : keeps (the_subscriber s).
Proof. intros w. unfold the_subscriber. by destruct (_ !! _). Qed.

Lemma keeps_the_data d : keeps (the_data d).
Proof. intros w. unfold the_data. by destruct (_ !! _). Qed.

Lemma keeps_tick : keeps _getCurrentSystemTick.
Proof. intros w. reflexivity. Qed.

Lemma keeps_subscriberCount this : keeps (subscriberCount this).
Proof.
  apply keeps_bind; [apply keeps_the_watchdog | intros; apply keeps_ret].
Qed.

Lemma keeps_update_watchdog this f :
  (∀ w wd, watchdogs w !! this = Some wd →
           R w (set_watchdogs (insert this (f wd)) w)) →
  keeps (update_watchdog this f).
Proof.
  intros Hf w. unfold update_watchdog, bind, the_watchdog, modify.
  destruct (_ !! _) eqn:Hl; [by apply Hf | done].
Qed.

Lemma keeps_update_subscriber s f :
  (∀ w sub, subscribers w !! s = Some sub →
            R w (set_subscribers (insert s (f sub)) w)) →
  keeps (update_subscriber s f).
Proof.
  intros Hf w. unfold update_subscriber, bind, the_subscriber, modify.
  destruct (_ !! _) eqn:Hl; [by apply Hf | done].
Qed.

Lemma keeps_update_data d f :
  (∀ w data, heap w !! d = Some data →
             R w (set_heap (insert d (f data)) w)) →
  keeps (update_data d f).
Proof.
  intros Hf w. unfold update_data, bind, the_data, modify.
  destruct (_ !! _) eqn:Hl; [by apply Hf | done].
Qed.

Lemma keeps_filter ds (p : N -> M E bool) :
  (∀ d, keeps (p d)) → keeps (_filter ds p).
Proof.
  intros Hp. induction ds as [|d ds IH]; cbn [_filter]; [apply keeps_ret|].
  apply keeps_bind; [apply Hp | intros keep].
  apply keeps_bind; [apply IH | intros kept; apply keeps_ret].
Qed.

Lemma keeps_forEach ds (f : N -> M E unit) :
  (∀ d, keeps (f d)) → keeps (forEach ds f).
Proof.
  intros Hf. induction ds as [|d ds IH]; cbn [forEach]; [apply keeps_ret|].
  apply keeps_bind; [apply Hf | intros _; apply IH].
Qed.

End Keeps.

(** [follows c1 c2]: whenever [c1] returns, [c2] returns the same result
    and leaves the same store. *)
Section Follows.
Context {E : Type}.

Definition follows {A} (c1 c2 : M E A) : Prop :=
  ∀ w a w', c1 w = Ok a w' → c2 w = Ok a w'.

Lemma follows_refl {A} (c : M E A) : follows c c.
Proof. by intros w a w'. Qed.

Lemma follows_bind {A B} (c1 c2 : M E A) (k1 k2 : A -> M E B) :
  follows c1 c2 → (∀ a, follows (k1 a) (k2 a)) → follows (bind c1 k1) (bind c2 k2).
Proof.
  intros Hc Hk w b w'. unfold bind. specialize (Hc w).
  destruct (c1 w) as [a w1|e w1]; [|done].
  rewrite (Hc a w1 eq_refl). apply Hk.
Qed.

(** A callback that does not call back, when it returns, has done what
    its [shadow] does. *)
Lemma follows_call_out c (cb : M E unit) :
  outside cb →
  follows (call_out c cb) (call_out c (quietly (λ w, env (final (cb w))))).
Proof.
  intros Ho w a w'. unfold call_out, quietly. specialize (Ho w).
  destruct (cb w) as [[] w1|e w1]; [|done]. cbn [final] in *.
  intros [= <- <-]. by rewrite <- Ho.
Qed.

Lemma follows_forEach ds (f1 f2 : N -> M E unit) :
  (∀ d, follows (f1 d) (f2 d)) → follows (forEach ds f1) (forEach ds f2).
Proof.
  intros Hf. induction ds as [|d ds IH]; cbn [forEach]; [apply follows_refl|].
  apply follows_bind; [apply Hf | intros _; apply IH].
Qed.

End Follows.

Ltac keeps_step :=
  first
    [ apply keeps_ret | apply keeps_throw | apply keeps_assert
    | apply keeps_the_watchdog | apply keeps_the_subscriber | apply keeps_the_data
    | apply keeps_tick | apply keeps_subscriberCount
    | apply keeps_bind; [ | intros ? ]
    | match goal with
      | |- keeps _ (match ?x with _ => _ end) => destruct x
      end ].

Ltac norm :=
  cbn [final watchdogs subscribers heap now calls env
       set_watchdogs set_subscribers set_heap set_now record_call set_env log_call
       quiet quietly run_timeout_listeners run_watchdogReset run_onClientSeen
       _watchdogDataMap _counter _currentTime _timer
       set_currentTime set_counter set_dataMap set_timer
       _watchDog _watchDogData watchdogReset keepAlive onClientSeen
       attach detach set_keepAlive
       key subscriber timeout lastSeen visitCount set_lastSeen count_visit
       isNumber negb andb orb].

Ltac decided :=
  solve [ done | eexists; done | intros [? ?]; done | intros ?; done ].

Ltac run :=
  unfold update_watchdog, update_subscriber, update_data, subscriberCount,
    getCurrentSystemTick, _getCurrentSystemTick, call_out, new_object;
  repeat (first
            [ progress norm
            | rewrite lookup_insert_eq
            | match goal with
              | Hl : ?x = Some _ |- context [?x] => rewrite Hl
              | Hl : ?x = None |- context [?x] => rewrite Hl
              | Hl : ?x = true |- context [?x] => rewrite Hl
              | Hl : ?x = false |- context [?x] => rewrite Hl
              | Hl : ?x = JNumber _ |- context [?x] => rewrite Hl
              end
            | rewrite bool_decide_eq_true_2 by decided
            | rewrite bool_decide_eq_false_2 by decided
            | progress unfold the_watchdog, the_subscriber, the_data, bind, modify,
                ret, throw, assert ]).

Ltac world_eq :=
  unfold set_watchdogs, set_subscribers, set_heap, set_now, record_call, set_env, log_call;
  cbn [watchdogs subscribers heap now calls env from_option id];
  rewrite ?insert_insert_eq.

Ltac run_step :=
  first
    [ erewrite (bind_Ok (the_subscriber _)) by (apply the_subscriber_Ok; simpl; eauto)
    | erewrite (bind_Ok (the_watchdog _)) by (apply the_watchdog_Ok; simpl; eauto)
    | erewrite (bind_Ok (the_data _)) by (apply the_data_Ok; simpl; eauto) ].

(** ** removeSubscriber *)

Section Remove.
Context {E : Type}.
Implicit Types (w : World E).

Lemma removeSubscriber_unregistered this s sub w :
  subscribers w !! s = Some sub → _watchDog sub = None →
  removeSubscriber this s w = Ok tt w.
Proof. intros Hs Hn. unfold removeSubscriber. by run. Qed.

(** The store after a registered subscriber has been removed. *)
Definition removed (this s k : N) (wd : WatchDog) (sub : ISubscriber) w : World E :=
  let m := obj_delete k (_watchdogDataMap wd) in
  set_subscribers (insert s (detach sub))
    (set_watchdogs (insert this
       (if (N.of_nat (length (Object_keys m)) =? 0)
        then set_timer None (set_dataMap m wd) else set_dataMap m wd)) w).

(** What [removeSubscriber] does with a subscriber whose members are all
    set and whose key is a key of this table. *)
Lemma removeSubscriber_attached this s sub x d data wd w :
  subscribers w !! s = Some sub →
  _watchDog sub = Some x → _watchDogData sub = Some d →
  heap w !! d = Some data → is_Some (keepAlive sub) →
  watchdogs w !! this = Some wd →
  hasOwnProperty (_watchdogDataMap wd) (key data) = true →
  removeSubscriber this s w =
    if (N.of_nat (length (Object_keys (obj_delete (key data) (_watchdogDataMap wd)))) =? 0)
       && bool_decide (_timer wd = None)
    then Throw (AssertionError "_stop_timer already called ?")
               (removed this s (key data) wd sub w)
    else Ok tt (removed this s (key data) wd sub w).
Proof.
  intros Hs Hx Hd Hdata [f Hk] Hwd Hin.
  unfold removeSubscriber, _stop_timer, removed. run.
  destruct (N.of_nat _ =? 0) eqn:Hn; [|done].
  destruct (_timer wd) as [tm|] eqn:Ht; run.
  - by world_eq.
  - do 3 f_equal. unfold set_timer, set_dataMap; cbn. by rewrite <- Ht.
Qed.

Lemma removeSubscriber_registered this s sub x d data wd w :
  subscribers w !! s = Some sub →
  _watchDog sub = Some x → _watchDogData sub = Some d →
  heap w !! d = Some data → is_Some (keepAlive sub) →
  watchdogs w !! this = Some wd →
  hasOwnProperty (_watchdogDataMap wd) (key data) = true →
  is_Some (_timer wd) →
  removeSubscriber this s w = Ok tt (removed this s (key data) wd sub w).
Proof.
  intros Hs Hx Hd Hdata Hk Hwd Hin [tm Ht].
  rewrite (removeSubscriber_attached _ _ _ _ _ _ _ _ Hs Hx Hd Hdata Hk Hwd Hin).
  rewrite Ht, (bool_decide_eq_false_2 (Some tm = None)) by done.
  by rewrite andb_false_r.
Qed.

(** The three ways a call of [removeSubscriber] can go. *)
Inductive remove_outcome (this s : N) w : Result E unit → Prop :=
| remove_throws e :
    remove_outcome this s w (Throw e w)
| remove_noop sub :
    subscribers w !! s = Some sub → _watchDog sub = None →
    remove_outcome this s w (Ok tt w)
| remove_done sub x d data wd r :
    subscribers w !! s = Some sub →
    _watchDog sub = Some x → _watchDogData sub = Some d →
    heap w !! d = Some data → is_Some (keepAlive sub) →
    watchdogs w !! this = Some wd →
    hasOwnProperty (_watchdogDataMap wd) (key data) = true →
    final r = removed this s (key data) wd sub w →
    (is_Some (_timer wd) → r = Ok tt (removed this s (key data) wd sub w)) →
    remove_outcome this s w r.

Lemma removeSubscriber_cases this s w :
  remove_outcome this s w (removeSubscriber this s w).
Proof.
  destruct (subscribers w !! s) as [sub|] eqn:Hs;
    [|unfold removeSubscriber; run; constructor].
  destruct (_watchDog sub) as [x|] eqn:Hx;
    [|rewrite (removeSubscriber_unregistered _ _ _ _ Hs Hx); by econstructor].
  destruct (_watchDogData sub) as [d|] eqn:Hd;
    [|unfold removeSubscriber; run; constructor].
  destruct (heap w !! d) as [data|] eqn:Hdata;
    [|unfold removeSubscriber; run; constructor].
  destruct (keepAlive sub) as [f|] eqn:Hf;
    [|unfold removeSubscriber; run; constructor].
  destruct (watchdogs w !! this) as [wd|] eqn:Hwd;
    [|unfold removeSubscriber; run; constructor].
  destruct (hasOwnProperty (_watchdogDataMap wd) (key data)) eqn:Hin;
    [|unfold removeSubscriber; run; constructor].
  assert (is_Some (keepAlive sub)) as Hk by (by rewrite Hf).
  eapply remove_done; try done.
  - rewrite (removeSubscriber_attached _ _ _ _ _ _ _ _ Hs Hx Hd Hdata Hk Hwd Hin).
    by destruct (_ && _).
  - intros Ht. by eapply removeSubscriber_registered.
Qed.

End Remove.

(** ** Facts about binary64 comparison *)



(** ** Facts about integer-keyed objects *)

Lemma filter_iff_elem {A} (P1 P2 : A → Prop)
    `{!∀ x, Decision (P1 x), !∀ x, Decision (P2 x)} (l : list A) :
  (∀ x, x ∈ l → P1 x ↔ P2 x) → filter P1 l = filter P2 l.
Proof.
  induction l as [|a l IH]; intros Hiff; [done|].
  assert (filter P1 l = filter P2 l) as Hl.
  { apply IH. intros x Hx. apply Hiff. by right. }
  destruct (decide (P1 a)) as [Ha|Ha].
  - rewrite !filter_cons_True; [by rewrite Hl | by apply Hiff; [left|] | done].
  - rewrite !filter_cons_False; [done | | done].
    intros Ha2. apply Ha, Hiff; [left | done].
Qed.

Lemma keys_functional (m : list (N * N)) k v1 v2 :
  NoDup (Object_keys m) → (k, v1) ∈ m → (k, v2) ∈ m → v1 = v2.
Proof.
  unfold Object_keys. induction m as [|[k' v'] m IH]; intros Hnd H1 H2.
  - by apply not_elem_of_nil in H1.
  - cbn [map fst] in Hnd. apply NoDup_cons in Hnd as [Hk Hnd].
    assert (∀ v, (k', v) ∈ m → False) as Hfresh.
    { intros v Hv. apply Hk. apply list_elem_of_fmap. by exists (k', v). }
    apply elem_of_cons in H1 as [H1|H1]; apply elem_of_cons in H2 as [H2|H2].
    + congruence.
    + injection H1 as -> ->. by destruct (Hfresh v2).
    + injection H2 as -> ->. by destruct (Hfresh v1).
    + by apply IH.
Qed.

Lemma NoDup_keys_filter (P : N * N → Prop) `{!∀ p, Decision (P p)} (m : list (N * N)) :
  NoDup (Object_keys m) → NoDup (Object_keys (filter P m)).
Proof.
  unfold Object_keys. induction m as [|p m IH]; intros Hnd; [done|].
  cbn [map] in Hnd. apply NoDup_cons in Hnd as [Hk Hnd].
  rewrite filter_cons. destruct (decide (P p)); [|by apply IH].
  cbn [map]. apply NoDup_cons. split; [|by apply IH].
  intros Hin. apply Hk. apply list_elem_of_fmap in Hin as [q [Hq Hin]].
  apply list_elem_of_filter in Hin as [_ Hin].
  apply list_elem_of_fmap. by exists q.
Qed.




Lemma hasOwnProperty_true m k :
  hasOwnProperty m k = true ↔ k ∈ Object_keys m.
Proof.
  unfold hasOwnProperty, Object_keys. rewrite existsb_exists, list_elem_of_fmap.
  split.
  - intros [p [Hp Hk]]. apply N.eqb_eq in Hk. exists p.
    split; [done | by apply list_elem_of_In].
  - intros [p [-> Hp]]. exists p. split; [by apply list_elem_of_In | apply N.eqb_refl].
Qed.

Lemma hasOwnProperty_false m k :
  hasOwnProperty m k = false ↔ k ∉ Object_keys m.
Proof.
  rewrite <- hasOwnProperty_true. by destruct (hasOwnProperty m k).
Qed.

Lemma length_Object_keys m : length (Object_keys m) = length m.
Proof. apply length_map. Qed.

Lemma elem_of_obj_set_same k v m : (k, v) ∈ obj_set k v m.
Proof.
  induction m as [|[k' v'] m IH]; cbn [obj_set]; [by left|].
  destruct (k <? k'); [by left|]. destruct (k =? k'); [by left | by right].
Qed.


Lemma length_obj_set_fresh k v m :
  hasOwnProperty m k = false → length (obj_set k v m) = S (length m).
Proof.
  induction m as [|[k' v'] m IH]; [done|]. cbn [hasOwnProperty existsb fst].
  intros Hf. apply orb_false_iff in Hf as [Hk Hm]. cbn [obj_set].
  destruct (k <? k'); [done|]. rewrite N.eqb_sym, Hk. cbn [length].
  f_equal. by apply IH.
Qed.

(** ** addSubscriber *)

Section Steps.
Context {E : Type}.
Implicit Types (w : World E).

Lemma update_watchdog_Ok this f wd w :
  watchdogs w !! this = Some wd →
  update_watchdog this f w = Ok tt (set_watchdogs (insert this (f wd)) w).
Proof. intros Hwd. unfold update_watchdog. by run. Qed.

Lemma update_subscriber_Ok s f sub w :
  subscribers w !! s = Some sub →
  update_subscriber s f w = Ok tt (set_subscribers (insert s (f sub)) w).
Proof. intros Hs. unfold update_subscriber. by run. Qed.

Lemma update_data_Ok d f data w :
  heap w !! d = Some data →
  update_data d f w = Ok tt (set_heap (insert d (f data)) w).
Proof. intros Hd. unfold update_data. by run. Qed.

Lemma subscriberCount_Ok this wd w :
  watchdogs w !! this = Some wd →
  subscriberCount this w = Ok (N.of_nat (length (Object_keys (_watchdogDataMap wd)))) w.
Proof. intros Hwd. unfold subscriberCount. by run. Qed.

End Steps.

Ltac lookup_now :=
  norm; rewrite ?lookup_insert_eq; first [eassumption | reflexivity].

(** One step of a method: the first command of a [bind] returns. *)
Ltac step :=
  lazymatch goal with
  | |- bind ?c ?k ?w = _ =>
      first
        [ rewrite (bind_Ok c k w _ _ eq_refl)
        | erewrite (bind_Ok c k w) by (apply the_watchdog_Ok; lookup_now)
        | erewrite (bind_Ok c k w) by (apply the_subscriber_Ok; lookup_now)
        | erewrite (bind_Ok c k w) by (apply the_data_Ok; lookup_now)
        | erewrite (bind_Ok c k w) by (apply update_watchdog_Ok; lookup_now)
        | erewrite (bind_Ok c k w) by (apply update_subscriber_Ok; lookup_now)
        | erewrite (bind_Ok c k w) by (apply update_data_Ok; lookup_now)
        | erewrite (bind_Ok c k w) by (apply subscriberCount_Ok; lookup_now) ]
  end; cbv beta.

Section Add.
Context {E : Type} (H : Handlers E).
Implicit Types (w : World E).

(** The store at the moment [onClientSeen] is called by [addSubscriber]:
    the entry is in the table, [keepAlive] is not bound yet. *)
Definition entered (this s : N) (n : float) (wd : WatchDog) (sub : ISubscriber) w : World E :=
  let k := _counter wd + 1 in
  let d := fresh (dom (heap w)) in
  set_watchdogs (insert this
      (set_dataMap (obj_set k d (_watchdogDataMap wd))
         (set_counter k (set_currentTime (now w) wd))))
    (set_subscribers (insert s (attach this d sub))
       (set_heap (insert d
          {| key := k; subscriber := s; timeout := n; lastSeen := now w;
             visitCount := 0 |}) w)).

(** The store that a successful [addSubscriber] leaves. *)
Definition added (this s : N) (n : float) (wd : WatchDog) (sub : ISubscriber) w : World E :=
  let k := _counter wd + 1 in
  let d := fresh (dom (heap w)) in
  let w1 := entered this s n wd sub w in
  let w2 := if onClientSeen sub
            then record_call (CallOnClientSeen s) (onClientSeen_impl H s w1) w1
            else w1 in
  set_watchdogs (insert this
      (set_timer (Some (default (setInterval this 1000) (_timer wd)))
         (set_dataMap (obj_set k d (_watchdogDataMap wd))
            (set_counter k (set_currentTime (now w) wd)))))
    (set_subscribers (insert s (set_keepAlive (Some s) (attach this d sub))) w2).

(** The store once [keepAlive] is bound, before the timer is looked at. *)
Definition bound_world (this s : N) (n : float) (wd : WatchDog) (sub : ISubscriber) w : World E :=
  let w1 := entered this s n wd sub w in
  set_subscribers
    (insert s (set_keepAlive (Some s) (attach this (fresh (dom (heap w))) sub)))
    (if onClientSeen sub
     then record_call (CallOnClientSeen s) (onClientSeen_impl H s w1) w1
     else w1).

(** The registry of [this] in [bound_world]. *)
Definition entered_registry (n : float) (wd : WatchDog) w : WatchDog :=
  set_dataMap (obj_set (_counter wd + 1) (fresh (dom (heap w))) (_watchdogDataMap wd))
    (set_counter (_counter wd + 1) (set_currentTime (now w) wd)).

(** Every way a call of [addSubscriber] can end once its assertions on the
    arguments have passed. *)
Lemma addSubscriber_unbound this s v n wd sub w :
  watchdogs w !! this = Some wd →
  subscribers w !! s = Some sub →
  js_or v (JNumber 1000) = JNumber n →
  watchdogReset sub = true → keepAlive sub = None →
  addSubscriber H this s v w =
    if N.of_nat (length (Object_keys (_watchdogDataMap (entered_registry n wd w)))) =? 1
    then (if bool_decide (_timer wd = None)
          then Ok (_counter wd + 1)
                 (set_watchdogs
                    (insert this (set_timer (Some (setInterval this 1000))
                                    (entered_registry n wd w)))
                    (bound_world this s n wd sub w))
          else Throw (AssertionError "") (bound_world this s n wd sub w))
    else (if bool_decide (_timer wd ≠ None)
          then Ok (_counter wd + 1) (bound_world this s n wd sub w)
          else Throw (AssertionError "") (bound_world this s n wd sub w)).
Proof.
  intros Hwd Hs Hv Hr Hk. unfold addSubscriber, getCurrentSystemTick.
  step. step. rewrite Hv. step. step. rewrite Hr. step. rewrite Hk.
  rewrite bool_decide_eq_false_2 by (by intros [? ?]). step. step. step. step.
  norm. step. step. step.
  match goal with
  | |- _ ?w0 = _ => assert (w0 = entered this s n wd sub w) as ->
  end.
  { unfold entered. norm. by world_eq. }
  unfold bound_world, entered_registry, entered, _start_timer.
  destruct (onClientSeen sub) eqn:Hseen.
  all: step; step; step; norm.
  all: destruct (N.of_nat _ =? 1) eqn:Hn.
  all: destruct (_timer wd) as [tm|] eqn:Htm.
  all: rewrite ?(bool_decide_eq_true_2 (None = None)) by done;
       rewrite ?(bool_decide_eq_false_2 (Some tm = None)) by done;
       rewrite ?(bool_decide_eq_true_2 (Some tm ≠ None)) by done;
       rewrite ?(bool_decide_eq_false_2 (None ≠ None)) by (by intros ?).
  all: run; try done; by world_eq.
Qed.
Lemma addSubscriber_fresh this s v n wd sub w :
  watchdogs w !! this = Some wd →
  subscribers w !! s = Some sub →
  js_or v (JNumber 1000) = JNumber n →
  watchdogReset sub = true → keepAlive sub = None →
  hasOwnProperty (_watchdogDataMap wd) (_counter wd + 1) = false →
  timer_ok wd →
  addSubscriber H this s v w = Ok (_counter wd + 1) (added this s n wd sub w).
Proof.
  intros Hwd Hs Hv Hr Hk Hfresh Ht.
  rewrite (addSubscriber_unbound this s v n wd sub w Hwd Hs Hv Hr Hk).
  unfold entered_registry at 1. norm.
  rewrite !length_Object_keys, length_obj_set_fresh by done.
  rewrite <- (length_Object_keys (_watchdogDataMap wd)).
  destruct (N.of_nat _ =? 1) eqn:Hn;
    [ apply N.eqb_eq in Hn;
      assert (_timer wd = None) as Htm
        by (destruct (_timer wd) eqn:Htm; [|done];
            assert (is_Some (_timer wd)) as Hsome by (by rewrite Htm);
            apply Ht in Hsome; lia)
    | apply N.eqb_neq in Hn;
      assert (is_Some (_timer wd)) as [tm Htm] by (apply Ht; lia) ].
  - rewrite Htm, bool_decide_eq_true_2 by done.
    unfold added, bound_world, entered_registry. rewrite Htm. reflexivity.
  - rewrite Htm, bool_decide_eq_true_2 by done.
    unfold added, bound_world, entered, entered_registry. rewrite Htm. f_equal.
    destruct (onClientSeen sub); world_eq;
      unfold set_timer, set_dataMap, set_counter, set_currentTime; norm;
      by rewrite Htm.
Qed.

End Add.

(** ** The sweep *)

Section Sweep.
Context {E : Type} (H : Handlers E).
Implicit Types (w : World E) (h : gmap N IWatchdogData2).

(** The classification of the entry stored at [d], read at tick [t]. *)
Definition expired_at h (t : float) (d : N) : bool :=
  match h !! d with
  | Some data => hasExpired data t
  | None => false
  end.

(** The heap once every entry of [ds] has been visited. *)
Fixpoint visited (ds : list N) h : gmap N IWatchdogData2 :=
  match ds with
  | [] => h
  | d :: ds =>
      visited ds (match h !! d with
                  | Some data => <[d := count_visit data]> h
                  | None => h
                  end)
  end.

(** The subscriber that owns the entry stored at [d]. *)
Definition owner h (d : N) : N :=
  match h !! d with
  | Some data => subscriber data
  | None => 0
  end.

Lemma expired_at_count_visit h t d data d' :
  h !! d = Some data →
  expired_at (<[d := count_visit data]> h) t d' = expired_at h t d'.
Proof.
  intros Hd. unfold expired_at. destruct (decide (d = d')) as [->|Hne].
  - by rewrite lookup_insert_eq, Hd.
  - by rewrite lookup_insert_ne.
Qed.

Lemma filter_visit this wd ds : ∀ w,
  watchdogs w !! this = Some wd →
  (∀ d, d ∈ ds → is_Some (heap w !! d)) →
  _filter ds (visit_one this) w =
    Ok (filter (λ d, expired_at (heap w) (_currentTime wd) d = true) ds)
       (set_heap (visited ds) w).
Proof.
  induction ds as [|d ds IH]; intros w Hwd Hds.
  - cbn [_filter visited]. by destruct w.
  - destruct (Hds d) as [data Hd]; [left|].
    cbn [_filter]. unfold visit_one at 1. run.
    rewrite IH; cbn [watchdogs heap set_heap]; [|done|].
    2:{ intros d' Hd'. destruct (decide (d = d')) as [->|Hne].
        - rewrite lookup_insert_eq. by eexists.
        - rewrite lookup_insert_ne by done. apply Hds. by right. }
    assert (set_heap (visited ds) (set_heap <[d:=count_visit data]> w)
            = set_heap (visited (d :: ds)) w) as ->.
    { unfold set_heap; cbn [heap watchdogs subscribers now calls env visited].
      by rewrite Hd. }
    f_equal. rewrite filter_cons.
    assert (expired_at (heap w) (_currentTime wd) d
            = hasExpired (count_visit data) (_currentTime wd)) as Hexp.
    { unfold expired_at. by rewrite Hd. }
    rewrite <- Hexp.
    rewrite (list_filter_iff _ (λ d0, expired_at (heap w) (_currentTime wd) d0 = true)).
    2:{ intros d'. by rewrite expired_at_count_visit. }
    destruct (expired_at (heap w) (_currentTime wd) d) eqn:Hx.
    + by rewrite decide_True.
    + by rewrite decide_False.
Qed.

Lemma visited_same ds : ∀ h d data,
  h !! d = Some data →
  ∃ data', visited ds h !! d = Some data' ∧
    key data' = key data ∧ subscriber data' = subscriber data ∧
    timeout data' = timeout data ∧ lastSeen data' = lastSeen data.
Proof.
  induction ds as [|d0 ds IH]; intros h d data Hd; cbn [visited]; [by exists data|].
  destruct (h !! d0) as [data0|] eqn:Hd0; [|by apply IH].
  destruct (decide (d0 = d)) as [->|Hne].
  - assert (data0 = data) as -> by congruence.
    destruct (IH (<[d:=count_visit data]> h) d (count_visit data))
      as (data' & ? & ? & ? & ? & ?); [apply lookup_insert_eq|].
    by exists data'.
  - apply IH. by rewrite lookup_insert_ne.
Qed.

Lemma visited_notin ds : ∀ h d, d ∉ ds → visited ds h !! d = h !! d.
Proof.
  induction ds as [|d0 ds IH]; intros h d Hd; cbn [visited]; [done|].
  apply not_elem_of_cons in Hd as [Hne Hd]. rewrite IH by done.
  destruct (h !! d0); [by rewrite lookup_insert_ne | done].
Qed.

Lemma visited_once ds : ∀ h d data,
  NoDup ds → d ∈ ds → h !! d = Some data →
  visited ds h !! d = Some (count_visit data).
Proof.
  induction ds as [|d0 ds IH]; intros h d data Hnd Hin Hd; cbn [visited].
  - by apply not_elem_of_nil in Hin.
  - apply NoDup_cons in Hnd as [Hd0 Hnd].
    apply elem_of_cons in Hin as [->|Hin].
    + rewrite Hd, visited_notin by done. apply lookup_insert_eq.
    + assert (d0 ≠ d) by (intros ->; done).
      apply IH; [done..|]. destruct (h !! d0); [by rewrite lookup_insert_ne | done].
Qed.

(** *** One eviction *)

Lemma entry_ok_unique w this wd k d k' d' :
  watchdogs w !! this = Some wd →
  NoDup (Object_keys (_watchdogDataMap wd)) →
  Forall (entry_ok w this) (_watchdogDataMap wd) →
  (k, d) ∈ _watchdogDataMap wd → (k', d') ∈ _watchdogDataMap wd →
  owner (heap w) d = owner (heap w) d' → k = k' ∧ d = d'.
Proof.
  intros Hwd Hnd Hall Hin Hin' Hown.
  rewrite Forall_forall in Hall.
  destruct (Hall _ Hin) as (data & sub & Hd & Hk & Hs & _ & Hdd & _).
  destruct (Hall _ Hin') as (data' & sub' & Hd' & Hk' & Hs' & _ & Hdd' & _).
  cbn [fst snd] in *. unfold owner in Hown. rewrite Hd, Hd' in Hown.
  rewrite Hown in Hs. assert (sub = sub') as -> by congruence.
  assert (d = d') as -> by congruence.
  assert (data = data') as -> by congruence.
  split; [congruence | done].
Qed.

Lemma obj_delete_by_value w this wd k d :
  watchdogs w !! this = Some wd →
  NoDup (Object_keys (_watchdogDataMap wd)) →
  Forall (entry_ok w this) (_watchdogDataMap wd) →
  (k, d) ∈ _watchdogDataMap wd →
  obj_delete k (_watchdogDataMap wd) = filter (λ p, p.2 ≠ d) (_watchdogDataMap wd).
Proof.
  intros Hwd Hnd Hall Hin. unfold obj_delete.
  apply filter_iff_elem. intros [k' d'] Hin'; cbn [fst snd].
  split; intros Hne Heq; apply Hne.
  - subst d'. rewrite Forall_forall in Hall.
    destruct (Hall _ Hin) as (data & sub & Hd & Hk & _).
    destruct (Hall _ Hin') as (data' & sub' & Hd' & Hk' & _).
    cbn [fst snd] in *. congruence.
  - subst k'. by eapply keys_functional.
Qed.

Lemma wf_removed w this wd k d data sub :
  wf w this →
  watchdogs w !! this = Some wd →
  (k, d) ∈ _watchdogDataMap wd →
  heap w !! d = Some data →
  subscribers w !! subscriber data = Some sub →
  wf (removed this (subscriber data) k wd sub w) this.
Proof.
  intros (wd0 & Hwd0 & Hnd & Hall & Ht) Hwd Hin Hd Hs.
  assert (wd0 = wd) as -> by congruence.
  unfold wf, removed. norm. rewrite lookup_insert_eq. eexists. split; [done|].
  assert (NoDup (Object_keys (obj_delete k (_watchdogDataMap wd)))) as Hnd'
    by (by apply NoDup_keys_filter).
  assert (Forall (entry_ok (removed this (subscriber data) k wd sub w) this)
            (obj_delete k (_watchdogDataMap wd))) as Hall'.
  { apply Forall_forall. intros [k' d'] Hin'.
    apply list_elem_of_filter in Hin' as [Hne Hin']. cbn [fst] in Hne.
    rewrite Forall_forall in Hall.
    destruct (Hall _ Hin') as (data' & sub' & Hd' & Hk' & Hs' & Hw' & Hdd' & Hka' & Hr').
    destruct (Hall _ Hin) as (data0 & sub0 & Hd0 & Hk0 & Hs0 & Hw0 & Hdd0 & _).
    cbn [fst snd] in *.
    assert (data0 = data) as -> by congruence.
    assert (sub0 = sub) as -> by congruence.
    exists data', sub'. unfold removed. norm.
    assert (subscriber data ≠ subscriber data') as Hsne.
    { intros Heq. rewrite <- Heq in Hs'. congruence. }
    rewrite lookup_insert_ne by done. done. }
  assert (is_Some (_timer wd)) as [tm Htm].
  { apply Ht. rewrite length_Object_keys. destruct (_watchdogDataMap wd); [|cbn; lia].
    by apply not_elem_of_nil in Hin. }
  destruct (N.of_nat _ =? 0) eqn:Hn; norm.
  - apply N.eqb_eq in Hn. repeat (split; [done|]).
    unfold timer_ok; norm. split; [by intros [? ?] | lia].
  - apply N.eqb_neq in Hn. repeat (split; [done|]).
    unfold timer_ok; norm. rewrite Htm. split; [lia | by eexists].
Qed.

Lemma evict_one_registered w this wd k d data sub :
  wf w this →
  watchdogs w !! this = Some wd →
  (k, d) ∈ _watchdogDataMap wd →
  heap w !! d = Some data →
  subscribers w !! subscriber data = Some sub →
  evict_one H this d w =
    Ok tt (record_call (CallWatchdogReset (subscriber data))
             (watchdogReset_impl H (subscriber data)
                (removed this (subscriber data) k wd sub w))
             (removed this (subscriber data) k wd sub w)).
Proof.
  intros (wd0 & Hwd0 & Hnd & Hall & Ht) Hwd Hin Hd Hs.
  assert (wd0 = wd) as -> by congruence.
  rewrite Forall_forall in Hall.
  destruct (Hall _ Hin) as (data0 & sub0 & Hd0 & Hk0 & Hs0 & Hw0 & Hdd0 & Hka & Hr).
  cbn [fst snd] in *.
  assert (data0 = data) as -> by congruence.
  assert (sub0 = sub) as -> by congruence.
  assert (hasOwnProperty (_watchdogDataMap wd) (key data) = true) as Hown.
  { apply hasOwnProperty_true. apply list_elem_of_fmap. exists (k, d).
    split; [done | exact Hin]. }
  assert (is_Some (_timer wd)) as Htm.
  { apply Ht. rewrite length_Object_keys. destruct (_watchdogDataMap wd); [|cbn; lia].
    by apply not_elem_of_nil in Hin. }
  unfold evict_one. run_step.
  rewrite (bind_Ok _ _ _ _ _
    (removeSubscriber_registered _ _ _ _ _ _ _ _ Hs Hw0 Hdd0 Hd Hka Hwd Hown Htm)).
  rewrite Hk0. unfold removed at 1. by run.
Qed.

Lemma filter_notin_nil (m : list (N * N)) : filter (λ p, p.2 ∉ @nil N) m = m.
Proof.
  induction m as [|p m IH]; [done|].
  rewrite filter_cons_True; [by rewrite IH | apply not_elem_of_nil].
Qed.

(** *** The eviction loop *)

Lemma evict_all this batch : ∀ w wd,
  wf w this →
  watchdogs w !! this = Some wd →
  NoDup batch →
  (∀ d, d ∈ batch → d ∈ Object_values (_watchdogDataMap wd)) →
  ∃ w' wd',
    forEach batch (evict_one H this) w = Ok tt w' ∧
    wf w' this ∧
    watchdogs w' !! this = Some wd' ∧
    _watchdogDataMap wd' = filter (λ p, p.2 ∉ batch) (_watchdogDataMap wd) ∧
    heap w' = heap w ∧
    calls w' = calls w ++ map (λ d, CallWatchdogReset (owner (heap w) d)) batch ∧
    (∀ d, d ∈ batch → ∃ sub',
        subscribers w' !! owner (heap w) d = Some sub' ∧
        _watchDog sub' = None ∧ _watchDogData sub' = None ∧ keepAlive sub' = None) ∧
    (∀ s, (∀ d, d ∈ batch → owner (heap w) d ≠ s) →
          subscribers w' !! s = subscribers w !! s).
Proof.
  induction batch as [|d batch IH]; intros w wd Hwf Hwd Hnd Hsub.
  - exists w, wd. cbn [forEach map]. rewrite filter_notin_nil, app_nil_r.
    repeat (split; [done|]). split; [|done].
    intros d Hd. by apply not_elem_of_nil in Hd.
  - apply NoDup_cons in Hnd as [Hd Hnd].
    assert (d ∈ Object_values (_watchdogDataMap wd)) as Hin by (apply Hsub; left).
    apply list_elem_of_fmap in Hin as ([k d0] & Heq & Hin). cbn [snd] in Heq. subst d0.
    pose proof Hwf as (wd0 & Hwd0 & Hndk & Hall & Ht).
    assert (wd0 = wd) as -> by congruence.
    pose proof Hall as Hall'. rewrite Forall_forall in Hall'.
    destruct (Hall' _ Hin) as (data & sub & Hdata & Hk & Hs & Hw & Hdd & Hka & Hr).
    cbn [fst snd] in *.
    pose proof (evict_one_registered _ _ _ _ _ _ _ Hwf Hwd Hin Hdata Hs) as Hstep.
    pose proof (wf_removed _ _ _ _ _ _ _ Hwf Hwd Hin Hdata Hs) as Hwf1.
    set (w1 := removed this (subscriber data) k wd sub w) in *.
    set (w1' := record_call _ _ w1) in *.
    assert (wf w1' this) as Hwf1' by exact Hwf1.
    destruct Hwf1 as (wd1 & Hwd1 & _).
    assert (_watchdogDataMap wd1 = filter (λ p, p.2 ≠ d) (_watchdogDataMap wd)) as Hmap1.
    { rewrite <- (obj_delete_by_value w this wd k d) by done.
      unfold w1, removed in Hwd1. revert Hwd1. norm. rewrite lookup_insert_eq.
      intros [= <-]. by destruct (_ =? 0). }
    assert (heap w1' = heap w) as Hheap1 by done.
    assert (owner (heap w) d = subscriber data) as Hown
      by (unfold owner; by rewrite Hdata).
    destruct (IH w1' wd1) as (w' & wd' & Hrun & Hwf' & Hwd' & Hmap' & Hheap' & Hcalls' & Hdet & Hframe);
      [done | exact Hwd1 | done | |].
    { intros d' Hd'. rewrite Hmap1.
      specialize (Hsub d' ltac:(by right)).
      apply list_elem_of_fmap in Hsub as (p & Hp2 & Hp).
      apply list_elem_of_fmap. exists p. split; [done|].
      apply list_elem_of_filter. split; [|done]. congruence. }
    exists w', wd'. cbn [forEach]. rewrite (bind_Ok _ _ _ _ _ Hstep).
    split; [done|]. split; [done|]. split; [done|]. split.
    { rewrite Hmap', Hmap1, list_filter_filter. apply list_filter_iff.
      intros p. rewrite not_elem_of_cons. tauto. }
    split; [congruence|]. split.
    { rewrite Hcalls', Hheap1. cbn [map]. rewrite Hown.
      unfold w1', record_call; cbn [calls]. by rewrite <- app_assoc. }
    assert (∀ d', d' ∈ batch → owner (heap w) d' ≠ subscriber data) as Hothers.
    { intros d' Hd' Heq.
      specialize (Hsub d' ltac:(by right)).
      apply list_elem_of_fmap in Hsub as ([k' d''] & Heq' & Hp). cbn [snd] in Heq'. subst d''.
      destruct (entry_ok_unique w this wd k d k' d') as [_ <-]; try done.
      by rewrite Hown. }
    split.
    { intros d' Hd'. apply elem_of_cons in Hd' as [->|Hd'].
      - rewrite Hown, Hframe by (by rewrite Hheap1).
        unfold w1', w1, removed. norm. rewrite lookup_insert_eq.
        by eexists.
      - rewrite <- Hheap1. by apply Hdet. }
    { intros s Hs'. rewrite Hframe.
      - unfold w1', w1, removed. norm. rewrite lookup_insert_ne; [done|].
        rewrite <- Hown. apply Hs'. by left.
      - intros d' Hd'. rewrite Hheap1. apply Hs'. by right. }
Qed.

(** *** The whole pass *)

Lemma owner_visited ds : ∀ h d, owner (visited ds h) d = owner h d.
Proof.
  induction ds as [|d0 ds IH]; intros h d; cbn [visited]; [done|].
  rewrite IH. destruct (h !! d0) as [data0|] eqn:Hd0; [|done].
  unfold owner. destruct (decide (d0 = d)) as [->|Hne].
  - by rewrite lookup_insert_eq, Hd0.
  - by rewrite lookup_insert_ne.
Qed.

Lemma wf_visited ds w this : wf w this → wf (set_heap (visited ds) w) this.
Proof.
  intros (wd & Hwd & Hnd & Hall & Ht). exists wd. repeat (split; [done|]).
  split; [|done]. eapply Forall_impl; [exact Hall|].
  intros [k d] (data & sub & Hd & Hk & Hs & Hrest). cbn [fst snd] in *.
  destruct (visited_same ds _ _ _ Hd) as (data' & Hd' & Hk' & Hs' & _).
  exists data', sub. cbn [fst snd heap set_heap subscribers].
  rewrite Hs', Hk'. done.
Qed.

Lemma wf_set_currentTime t w this wd :
  watchdogs w !! this = Some wd →
  wf w this → wf (set_watchdogs (insert this (set_currentTime t wd)) w) this.
Proof.
  intros Hwd (wd0 & Hwd0 & Hnd & Hall & Ht).
  assert (wd0 = wd) as -> by congruence.
  exists (set_currentTime t wd). norm. rewrite lookup_insert_eq. done.
Qed.

Lemma NoDup_values w this wd :
  watchdogs w !! this = Some wd → wf w this →
  NoDup (Object_values (_watchdogDataMap wd)).
Proof.
  intros Hwd (wd0 & Hwd0 & Hnd & Hall & _).
  assert (wd0 = wd) as -> by congruence. clear Hwd Hwd0.
  unfold Object_values, Object_keys in *.
  induction (_watchdogDataMap wd) as [|[k d] m IH]; [constructor|].
  cbn [map fst snd] in *.
  apply NoDup_cons in Hnd as [Hk Hnd]. apply Forall_cons in Hall as [Hkd Hall].
  apply NoDup_cons. split; [|by apply IH].
  intros Hin. apply list_elem_of_fmap in Hin as ([k' d'] & Heq & Hin).
  cbn [snd] in Heq. subst d'. apply Hk.
  rewrite Forall_forall in Hall.
  destruct (Hall _ Hin) as (data' & _ & Hd' & Hk' & _).
  destruct Hkd as (data & _ & Hd & Hk0 & _). cbn [fst snd] in *.
  assert (k = k') as -> by congruence.
  apply list_elem_of_fmap. by exists (k', d).
Qed.

(** The store in which the listeners of "timeout" run: the tick has been
    read and every entry visited; nothing has been removed yet. *)
Definition swept (this : N) (wd : WatchDog) w : World E :=
  set_heap (visited (Object_values (_watchdogDataMap wd)))
    (set_watchdogs (insert this (set_currentTime (now w) wd)) w).

(** The batch of a pass. *)
Definition expired_batch (wd : WatchDog) w : list N :=
  filter (λ d, expired_at (heap w) (now w) d = true)
         (Object_values (_watchdogDataMap wd)).

(** The store once the batch has been announced. *)
Definition announced (this : N) (wd : WatchDog) w : World E :=
  let batch := expired_batch wd w in
  if negb (length batch =? 0)%nat
  then record_call (CallTimeout batch) (timeout_listener H batch (swept this wd w))
         (swept this wd w)
  else swept this wd w.

Lemma visit_unfold this wd w :
  wf w this → watchdogs w !! this = Some wd →
  _visit_subscriber H this w =
    forEach (expired_batch wd w) (evict_one H this) (announced this wd w).
Proof.
  intros Hwf Hwd. unfold _visit_subscriber. run.
  erewrite filter_visit; [| by norm; rewrite lookup_insert_eq |].
  2:{ norm. intros d Hd. apply list_elem_of_fmap in Hd as ([k d'] & -> & Hin).
      destruct Hwf as (wd0 & Hwd0 & _ & Hall & _).
      assert (wd0 = wd) as -> by congruence.
      rewrite Forall_forall in Hall.
      destruct (Hall _ Hin) as (data & _ & Hd & _). by eexists. }
  norm. unfold announced, expired_batch, swept, emit_timeout, call_out.
  by destruct (negb _).
Qed.

Lemma visit_spec this wd w :
  wf w this → watchdogs w !! this = Some wd →
  ∃ w' wd',
    _visit_subscriber H this w = Ok tt w' ∧
    wf w' this ∧
    watchdogs w' !! this = Some wd' ∧
    _watchdogDataMap wd' =
      filter (λ p, p.2 ∉ expired_batch wd w) (_watchdogDataMap wd) ∧
    heap w' = visited (Object_values (_watchdogDataMap wd)) (heap w) ∧
    calls w' = calls (announced this wd w)
               ++ map (λ d, CallWatchdogReset (owner (heap w) d)) (expired_batch wd w) ∧
    (∀ d, d ∈ expired_batch wd w → ∃ sub',
        subscribers w' !! owner (heap w) d = Some sub' ∧
        _watchDog sub' = None ∧ _watchDogData sub' = None ∧ keepAlive sub' = None) ∧
    (∀ s, (∀ d, d ∈ expired_batch wd w → owner (heap w) d ≠ s) →
          subscribers w' !! s = subscribers w !! s).
Proof.
  intros Hwf Hwd. rewrite (visit_unfold _ _ _ Hwf Hwd).
  assert (wf (announced this wd w) this) as Hwf1.
  { unfold announced. destruct (negb _); apply wf_visited; by apply wf_set_currentTime. }
  assert (watchdogs (announced this wd w) !! this = Some (set_currentTime (now w) wd)) as Hwd1.
  { unfold announced, swept. destruct (negb _); norm; apply lookup_insert_eq. }
  assert (heap (announced this wd w)
          = visited (Object_values (_watchdogDataMap wd)) (heap w)) as Hheap1.
  { unfold announced, swept. by destruct (negb _). }
  assert (subscribers (announced this wd w) = subscribers w) as Hsubs1.
  { unfold announced, swept. by destruct (negb _). }
  destruct (evict_all this (expired_batch wd w) _ _ Hwf1 Hwd1)
    as (w' & wd' & Hrun & Hwf' & Hwd' & Hmap' & Hheap' & Hcalls' & Hdet & Hframe).
  { apply NoDup_filter. by eapply NoDup_values. }
  { intros d Hd. by apply list_elem_of_filter in Hd as [_ Hd]. }
  exists w', wd'. split; [done|]. split; [done|]. split; [done|]. split; [done|].
  split; [congruence|]. split.
  { rewrite Hcalls'. f_equal. apply map_ext. intros d.
    by rewrite Hheap1, owner_visited. }
  split.
  { intros d Hd. destruct (Hdet d Hd) as (sub' & Hs & ?).
    rewrite Hheap1, owner_visited in Hs. by exists sub'. }
  { intros s Hs. rewrite Hframe, Hsubs1; [done|].
    intros d Hd. rewrite Hheap1, owner_visited. by apply Hs. }
Qed.

End Sweep.

(** ** What holds of every host *)

Section AnyHost.
Context {E : Type} (h : Host E).
Implicit Types (w : World E).




(** The keep-alive callback of a bound subscriber: [lastSeen] is written,
    then [onClientSeen] is called, if the subscriber has one. *)
Lemma keepAliveFunc_host s sub x d data w :
  subscribers w !! s = Some sub →
  _watchDog sub = Some x → _watchDogData sub = Some d →
  heap w !! d = Some data →
  keepAliveFunc h s w =
    (if onClientSeen sub
     then call_out (CallOnClientSeen s) (run_onClientSeen h s)
     else ret tt) (set_heap (insert d (set_lastSeen (now w) data)) w).
Proof.
  intros Hs Hx Hdd Hd. unfold keepAliveFunc, getCurrentSystemTick.
  step. rewrite Hx, Hdd. rewrite bool_decide_eq_true_2 by (by eexists).
  step. step. step. step. reflexivity.
Qed.

End AnyHost.

(** ** Hosts that do not call back into the registry

    Whenever a method returns under such a host, it returns the same under
    the host's [shadow], whose callbacks return normally. *)

Section ReentryFree.
Context {E : Type} (h : Host E) (Hfree : reentry_free h).
Implicit Types (w : World E).

Lemma addSubscriber_follows this s v :
  follows (addSubscriber h this s v) (addSubscriber (shadow h) this s v).
Proof.
  destruct Hfree as (Hl & Hreset & Hseen). unfold addSubscriber.
  repeat first
    [ apply follows_call_out, Hseen
    | apply follows_bind; [ | intros ? ]
    | match goal with
      | |- follows (match ?x with _ => _ end) _ => destruct x
      end
    | apply follows_refl ].
Qed.


Lemma visit_follows this :
  follows (_visit_subscriber h this) (_visit_subscriber (shadow h) this).
Proof.
  destruct Hfree as (Hl & Hreset & Hseen).
  unfold _visit_subscriber, emit_timeout.
  repeat first
    [ apply follows_call_out, Hl
    | apply follows_forEach; intros ?; unfold evict_one
    | apply follows_call_out, Hreset
    | apply follows_bind; [ | intros ? ]
    | match goal with
      | |- follows (match ?x with _ => _ end) _ => destruct x
      end
    | apply follows_refl ].
Qed.

End ReentryFree.

(** ** The timer invariant *)

Section Timers.
Context {E : Type} (H : Handlers E).
Implicit Types (w : World E).

Definition timers_kept : relation (World E) :=
  λ w w', timers_ok w → timers_ok w'.

Global Instance timers_kept_preorder : PreOrder timers_kept.
Proof.
  split; [by intros w Hw | intros w1 w2 w3 H12 H23 Hw; by apply H23, H12].
Qed.














End Timers.

(** ** Programming-contract violations *)

Section Contract.
Context {E : Type} (H : Handlers E).
Implicit Types (w : World E).

Lemma keepAliveFunc_unregistered s sub w :
  subscribers w !! s = Some sub → _watchDog sub = None →
  keepAliveFunc H s w = Throw (AssertionError "") w.
Proof. intros Hs Hx. unfold keepAliveFunc. by run. Qed.

Lemma keepAliveFunc_no_data s sub x w :
  subscribers w !! s = Some sub → _watchDog sub = Some x → _watchDogData sub = None →
  keepAliveFunc H s w = Throw (Error "Internal error") w.
Proof. intros Hs Hx Hd. unfold keepAliveFunc. by run. Qed.

Lemma removeSubscriber_no_data this s sub x w :
  subscribers w !! s = Some sub → _watchDog sub = Some x → _watchDogData sub = None →
  removeSubscriber this s w = Throw (Error "Internal error") w.
Proof. intros Hs Hx Hd. unfold removeSubscriber. by run. Qed.

Lemma removeSubscriber_detached this s sub x d data w :
  subscribers w !! s = Some sub → _watchDog sub = Some x → _watchDogData sub = Some d →
  heap w !! d = Some data → keepAlive sub = None →
  removeSubscriber this s w = Throw (AssertionError "") w.
Proof. intros Hs Hx Hd Hdata Hk. unfold removeSubscriber. by run. Qed.

Lemma removeSubscriber_foreign_key this s sub x d data wd w :
  subscribers w !! s = Some sub → _watchDog sub = Some x → _watchDogData sub = Some d →
  heap w !! d = Some data → is_Some (keepAlive sub) →
  watchdogs w !! this = Some wd →
  hasOwnProperty (_watchdogDataMap wd) (key data) = false →
  removeSubscriber this s w = Throw (AssertionError "") w.
Proof. intros Hs Hx Hd Hdata [f Hk] Hwd Hin. unfold removeSubscriber. by run. Qed.


End Contract.

(** ** Which outbound calls a method makes *)

Section Calls.
Context {E : Type} (H : Handlers E).
Implicit Types (w : World E).

Definition is_reset (c : Call) : Prop :=
  match c with CallWatchdogReset _ => True | _ => False end.

(** Since [w], no [watchdogReset] has been called. *)
Definition no_reset_since : relation (World E) :=
  λ w w', ∃ l, calls w' = calls w ++ l ∧ Forall (λ c, ¬ is_reset c) l.

Global Instance no_reset_since_preorder : PreOrder no_reset_since.
Proof.
  split.
  - intros w. exists []. by rewrite app_nil_r.
  - intros w1 w2 w3 (l1 & H1 & Hl1) (l2 & H2 & Hl2). exists (l1 ++ l2).
    split; [by rewrite H2, H1, app_assoc | by apply Forall_app].
Qed.

Lemma no_reset_same_calls w w' : calls w' = calls w → no_reset_since w w'.
Proof. intros Heq. exists []. by rewrite app_nil_r. Qed.

Lemma keeps_no_reset_watchdog this f :
  keeps no_reset_since (update_watchdog (E:=E) this f).
Proof.
  apply keeps_update_watchdog; [apply _|]. intros. by apply no_reset_same_calls.
Qed.

Lemma keeps_no_reset_subscriber s f :
  keeps no_reset_since (update_subscriber (E:=E) s f).
Proof.
  apply keeps_update_subscriber; [apply _|]. intros. by apply no_reset_same_calls.
Qed.

Lemma keeps_no_reset_data d f :
  keeps no_reset_since (update_data (E:=E) d f).
Proof.
  apply keeps_update_data; [apply _|]. intros. by apply no_reset_same_calls.
Qed.

Lemma keeps_no_reset_seen s (cb : M E unit) :
  outside cb → keeps no_reset_since (call_out (CallOnClientSeen s) cb).
Proof.
  intros Ho w. rewrite call_out_outside by done.
  exists [CallOnClientSeen s]. split; [done|].
  apply Forall_singleton. by intros [].
Qed.

Lemma keeps_no_reset_new_object data :
  keeps no_reset_since (new_object (E:=E) data).
Proof. intros w. by apply no_reset_same_calls. Qed.

Ltac no_reset_go :=
  repeat first
    [ apply keeps_no_reset_watchdog
    | apply keeps_no_reset_subscriber
    | apply keeps_no_reset_data
    | apply keeps_no_reset_seen; apply outside_quietly
    | apply keeps_no_reset_new_object
    | apply keeps_subscriberCount; apply _
    | apply keeps_ret; apply _
    | apply keeps_throw; apply _
    | apply keeps_assert; apply _
    | apply keeps_the_watchdog; apply _
    | apply keeps_the_subscriber; apply _
    | apply keeps_the_data; apply _
    | apply keeps_tick; apply _
    | apply keeps_bind; [apply _ | | intros ?]
    | match goal with
      | |- keeps _ (match ?x with _ => _ end) => destruct x
      end ].

Lemma addSubscriber_no_reset this s v :
  keeps no_reset_since (addSubscriber H this s v).
Proof. unfold addSubscriber, _start_timer, getCurrentSystemTick. no_reset_go. Qed.

Lemma keepAliveFunc_no_reset s :
  keeps no_reset_since (keepAliveFunc H s).
Proof. unfold keepAliveFunc, getCurrentSystemTick. no_reset_go. Qed.

Lemma removeSubscriber_silent this s w :
  calls (final (removeSubscriber this s w)) = calls w ∧
  env (final (removeSubscriber this s w)) = env w.
Proof.
  destruct (removeSubscriber_cases this s w)
    as [e|sub Hs Hx|sub x d data wd r Hs Hx Hd Hdata Hk Hwd Hin Hfin Hok]; [done..|].
  by rewrite Hfin.
Qed.

End Calls.

(** ** Sample hosts and stores *)

(** What a listener of "timeout" finds when it is called. *)
Record Seen := {
  seen_batch : list N;          (* the array it receives *)
  seen_count : N;               (* subscriberCount *)
  seen_in_table : list bool;    (* per entry: still a value of the table *)
  seen_bound : list bool        (* per entry: the subscriber still has keepAlive *)
}.

Definition in_table {E} (w : World E) (this d : N) : bool :=
  match watchdogs w !! this with
  | Some wd => bool_decide (d ∈ Object_values (_watchdogDataMap wd))
  | None => false
  end.

Definition bound {E} (w : World E) (d : N) : bool :=
  match subscribers w !! owner (heap w) d with
  | Some sub => bool_decide (is_Some (keepAlive sub))
  | None => false
  end.

(** A host that inspects the registry [this] whenever "timeout" fires. *)
Definition probe (this : N) : Handlers (list Seen) :=
  {| timeout_listener := λ batch w,
       env w ++ [ {| seen_batch := batch;
                     seen_count := match subscriberCount this w with
                                   | Ok n _ => n
                                   | Throw _ _ => 0
                                   end;
                     seen_in_table := map (in_table w this) batch;
                     seen_bound := map (bound w) batch |} ];
     watchdogReset_impl := λ _ w, env w;
     onClientSeen_impl := λ _ w, env w |}.

(** Two subscribers registered at tick 0 with timeout 50; it is now tick [t]. *)
Definition two_registered (t : float) : World (list Seen) :=
  final ((let* wd := new_WatchDog in
          let* a := new_subscriber true false in
          let* b := new_subscriber true true in
          addSubscriber (probe wd) wd a (JNumber 50) ;;;
          addSubscriber (probe wd) wd b (JNumber 50) ;;;
          clock_reads t) (empty_world [])).

Definition two_expiring : World (list Seen) := two_registered 51.

(** The registry of [two_registered t]. *)
Definition registry_of_two : WatchDog :=
  {| _watchdogDataMap := [(1, 0); (2, 1)]; _counter := 2; _currentTime := 0;
     _timer := Some (setInterval 0 1000) |}.

Example two_registered_registry t :
  watchdogs (two_registered t) !! 0 = Some registry_of_two.
Proof. vm_compute. reflexivity. Qed.

(** What the store of [two_registered t] holds. *)
Definition first_data : IWatchdogData2 :=
  {| key := 1; subscriber := 0; timeout := 50; lastSeen := 0; visitCount := 0 |}.

Definition second_data : IWatchdogData2 :=
  {| key := 2; subscriber := 1; timeout := 50; lastSeen := 0; visitCount := 0 |}.

Definition registered_subscriber (wd d s : N) (seen : bool) : ISubscriber :=
  {| _watchDog := Some wd; _watchDogData := Some d; watchdogReset := true;
     keepAlive := Some s; onClientSeen := seen |}.

Example two_registered_first t :
  heap (two_registered t) !! 0 = Some first_data ∧
  subscribers (two_registered t) !! 0 = Some (registered_subscriber 0 0 0 false).
Proof. split; vm_compute; reflexivity. Qed.

Example two_registered_second t :
  heap (two_registered t) !! 1 = Some second_data ∧
  subscribers (two_registered t) !! 1 = Some (registered_subscriber 0 1 1 true).
Proof. split; vm_compute; reflexivity. Qed.

Example two_registered_wf t : wf (two_registered t) 0.
Proof.
  exists registry_of_two. split; [apply two_registered_registry|].
  split; [|split].
  - cbn. apply NoDup_cons. split; [|apply NoDup_singleton].
    intros Hin. by apply list_elem_of_singleton in Hin.
  - repeat apply Forall_cons_2; [| |apply Forall_nil_2].
    + exists first_data, (registered_subscriber 0 0 0 false).
      destruct (two_registered_first t) as [Hd Hs].
      split; [exact Hd|]. split; [reflexivity|]. split; [exact Hs|].
      repeat split; try reflexivity. by exists 0.
    + exists second_data, (registered_subscriber 0 1 1 true).
      destruct (two_registered_second t) as [Hd Hs].
      split; [exact Hd|]. split; [reflexivity|]. split; [exact Hs|].
      repeat split; try reflexivity. by exists 1.
  - unfold timer_ok. cbn. split; [lia | by eexists].
Qed.

(** * The claims *)

Section Claims.
Context {E : Type} (H : Handlers E).
Implicit Types (w : World E).



(** C9.  A sweep increments by one the [visitCount] of every entry that is
    in the table when the pass starts, whether or not the entry is
    evicted in that pass; its other fields are unchanged. *)
Theorem sweep_counts_every_entry this wd w k d data :
  wf w this → watchdogs w !! this = Some wd →
  (k, d) ∈ _watchdogDataMap wd → heap w !! d = Some data →
  ∃ w',
    _visit_subscriber H this w = Ok tt w' ∧
    heap w' !! d = Some (count_visit data) ∧
    visitCount (count_visit data) = visitCount data + 1.
Proof.
  intros Hwf Hwd Hin Hd.
  destruct (visit_spec H this wd w Hwf Hwd)
    as (w' & wd' & Hrun & Hwf' & Hwd' & Hmap' & Hheap' & _).
  exists w'. split; [done|]. split; [|done].
  rewrite Hheap'. apply visited_once; [by eapply NoDup_values | | done].
  apply list_elem_of_fmap. by exists (k, d).
Qed.

(** C3 (as amended).  When [addSubscriber] is given a falsy timeout (zero,
    NaN, or none at all) it stores the entry with the default of 1000 ms;
    any other number, a negative one included, is stored as it was
    given. *)
Theorem timeout_defaults_only_when_falsy this s v wd sub w :
  watchdogs w !! this = Some wd →
  subscribers w !! s = Some sub →
  watchdogReset sub = true → keepAlive sub = None →
  hasOwnProperty (_watchdogDataMap wd) (_counter wd + 1) = false →
  timer_ok wd →
  truthy v = false ∨ isNumber v = true →
  ∃ w' wd' sub' d data,
    addSubscriber H this s v w = Ok (_counter wd + 1) w' ∧
    watchdogs w' !! this = Some wd' ∧
    (_counter wd + 1, d) ∈ _watchdogDataMap wd' ∧
    subscribers w' !! s = Some sub' ∧ _watchDogData sub' = Some d ∧
    heap w' !! d = Some data ∧
    (truthy v = false → timeout data = 1000%float) ∧
    (∀ n, v = JNumber n → truthy v = true → timeout data = n).
Proof.
  intros Hwd Hs Hr Hk Hfresh Ht Hv.
  assert (∃ n, js_or v (JNumber 1000) = JNumber n ∧
               (truthy v = false → n = 1000%float) ∧
               (∀ n', v = JNumber n' → truthy v = true → n = n')) as (n & Hn & Hdef & Hkeep).
  { unfold js_or. destruct (truthy v) eqn:Htr.
    - destruct Hv as [?|Hnum]; [done|]. destruct v as [|n|]; try done.
      exists n. split; [done|]. split; [done|]. by intros n' [= ->].
    - exists 1000%float. split; [done|]. split; [done|]. done. }
  rewrite (addSubscriber_fresh H this s v n wd sub w Hwd Hs Hn Hr Hk Hfresh Ht).
  eexists _, _, _, (fresh (dom (heap w))), _.
  split; [reflexivity|]. unfold added, entered.
  split; [norm; apply lookup_insert_eq|].
  split; [norm; apply elem_of_obj_set_same|].
  split; [norm; apply lookup_insert_eq|].
  split; [done|].
  split; [destruct (onClientSeen sub); norm; apply lookup_insert_eq|].
  split; [exact Hdef | exact Hkeep].
Qed.



(** C6.  [removeSubscriber] of a subscriber that is not registered returns
    normally and leaves the store as it is; and whenever a call of
    [removeSubscriber] has returned, calling it again returns normally and
    changes nothing. *)
Theorem unregister_is_idempotent this s w :
  (∀ sub, subscribers w !! s = Some sub → _watchDog sub = None →
          removeSubscriber this s w = Ok tt w) ∧
  (∀ w1, removeSubscriber this s w = Ok tt w1 →
         removeSubscriber this s w1 = Ok tt w1).
Proof.
  split; [intros sub; apply removeSubscriber_unregistered|].
  intros w1 Hrun.
  destruct (removeSubscriber_cases this s w)
    as [e|sub Hs Hx|sub x d data wd r Hs Hx Hd Hdata Hk Hwd Hin Hfin Hok]; [done| |].
  - injection Hrun as <-. by eapply removeSubscriber_unregistered.
  - subst r. cbn [final] in Hfin. subst w1.
    eapply (removeSubscriber_unregistered _ _ (detach sub)); [|done].
    unfold removed. norm. apply lookup_insert_eq.
Qed.

(** C7.  [removeSubscriber] of a registered subscriber makes no outbound
    call ([watchdogReset] in particular) and leaves the host's state alone;
    it deletes the entry from the table, detaches the subscriber and stops
    the timer if the table has become empty.  [addSubscriber] and the
    keep-alive callback do not call [watchdogReset] either. *)
Theorem explicit_removal_never_resets this wd k d data sub w :
  wf w this → watchdogs w !! this = Some wd →
  (k, d) ∈ _watchdogDataMap wd → heap w !! d = Some data →
  subscribers w !! subscriber data = Some sub →
  ∃ w' wd',
    removeSubscriber this (subscriber data) w = Ok tt w' ∧
    calls w' = calls w ∧ env w' = env w ∧ heap w' = heap w ∧
    watchdogs w' !! this = Some wd' ∧
    _watchdogDataMap wd' = obj_delete k (_watchdogDataMap wd) ∧
    (_timer wd' = if (length (_watchdogDataMap wd') =? 0)%nat then None else _timer wd) ∧
    subscribers w' !! subscriber data = Some (detach sub) ∧
    (∀ s, s ≠ subscriber data → subscribers w' !! s = subscribers w !! s) ∧
    (∀ that s, calls (final (removeSubscriber that s w)) = calls w) ∧
    (∀ that s v, no_reset_since w (final (addSubscriber H that s v w))) ∧
    (∀ s, no_reset_since w (final (keepAliveFunc H s w))).
Proof.
  intros Hwf Hwd Hin Hd Hs.
  pose proof Hwf as (wd0 & Hwd0 & Hnd & Hall & Ht).
  assert (wd0 = wd) as -> by congruence.
  rewrite Forall_forall in Hall.
  destruct (Hall _ Hin) as (data0 & sub0 & Hd0 & Hk0 & Hs0 & Hx & Hdd & Hka & Hr).
  cbn [fst snd] in *.
  assert (data0 = data) as -> by congruence.
  assert (sub0 = sub) as -> by congruence.
  assert (hasOwnProperty (_watchdogDataMap wd) (key data) = true) as Hown.
  { apply hasOwnProperty_true. apply list_elem_of_fmap. exists (k, d).
    split; [done | exact Hin]. }
  assert (is_Some (_timer wd)) as Htm.
  { apply Ht. rewrite length_Object_keys. destruct (_watchdogDataMap wd); [|cbn; lia].
    by apply not_elem_of_nil in Hin. }
  rewrite (removeSubscriber_registered this _ sub this d data wd w Hs Hx Hdd Hd Hka Hwd Hown Htm).
  eexists _, _. split; [reflexivity|]. unfold removed. rewrite Hk0.
  split; [done|]. split; [done|]. split; [done|].
  split; [norm; apply lookup_insert_eq|].
  split; [by destruct (_ =? 0)|].
  split.
  { rewrite length_Object_keys.
    destruct (N.of_nat _ =? 0) eqn:Hn; norm.
    - apply N.eqb_eq in Hn.
      by destruct (length (obj_delete k (_watchdogDataMap wd))).
    - apply N.eqb_neq in Hn.
      by destruct (length (obj_delete k (_watchdogDataMap wd))). }
  split; [norm; apply lookup_insert_eq|].
  split; [intros s Hne; norm; by rewrite lookup_insert_ne|].
  split; [intros; apply removeSubscriber_silent|].
  split; [intros; apply addSubscriber_no_reset | intros; apply keepAliveFunc_no_reset].
Qed.

(** C8.  The bound keep-alive callback of a subscriber that has no active
    entry (its [_watchDog], or its [_watchDogData], is unset, as after
    [removeSubscriber]) throws at once and changes nothing: the assertion
    fails when [_watchDog] is unset, "Internal error" is thrown when only
    [_watchDogData] is. *)
Theorem keepAlive_without_entry_throws s sub w :
  subscribers w !! s = Some sub →
  _watchDog sub = None ∨ _watchDogData sub = None →
  ∃ e, keepAliveFunc H s w = Throw e w ∧
       (_watchDog sub = None → e = AssertionError "") ∧
       (is_Some (_watchDog sub) → e = Error "Internal error").
Proof.
  intros Hs Hunset. destruct (_watchDog sub) as [x|] eqn:Hx.
  - destruct Hunset as [?|Hd]; [done|].
    exists (Error "Internal error").
    split; [by eapply keepAliveFunc_no_data | done].
  - exists (AssertionError "").
    split; [by eapply keepAliveFunc_unregistered|].
    split; [done | by intros [? ?]].
Qed.

(** C10 (as amended).  [removeSubscriber] of a subscriber whose [_watchDog]
    is set never is the silent no-op: it throws "Internal error" when
    [_watchDogData] is unset, and an assertion fails when [keepAlive] is
    unset or when the key of its entry is not a key of this registry's
    table. *)
Theorem removeSubscriber_rejects_inconsistent this s sub x w :
  subscribers w !! s = Some sub → _watchDog sub = Some x →
  (_watchDogData sub = None →
     removeSubscriber this s w = Throw (Error "Internal error") w) ∧
  (∀ d data, _watchDogData sub = Some d → heap w !! d = Some data →
     keepAlive sub = None →
     removeSubscriber this s w = Throw (AssertionError "") w) ∧
  (∀ d data wd, _watchDogData sub = Some d → heap w !! d = Some data →
     watchdogs w !! this = Some wd →
     hasOwnProperty (_watchdogDataMap wd) (key data) = false →
     removeSubscriber this s w = Throw (AssertionError "") w) ∧
  removeSubscriber this s w ≠ Ok tt w.
Proof.
  intros Hs Hx. split; [by apply (removeSubscriber_no_data this s sub x)|].
  split; [intros d data; by apply (removeSubscriber_detached this s sub x)|].
  split.
  { intros d data wd Hd Hdata Hwd Hin.
    destruct (keepAlive sub) as [f|] eqn:Hk.
    - apply (removeSubscriber_foreign_key this s sub x d data wd w Hs Hx Hd Hdata);
        [rewrite Hk; by eexists | exact Hwd | exact Hin].
    - exact (removeSubscriber_detached this s sub x d data w Hs Hx Hd Hdata Hk). }
  intros Hrun.
  destruct (removeSubscriber_cases this s w)
    as [e|sub' Hs' Hx'|sub' x' d data wd r Hs' Hx' Hd Hdata Hk Hwd Hin Hfin Hok];
    [done|congruence|].
  subst r. cbn [final] in Hfin.
  apply (f_equal (λ w0, subscribers w0 !! s)) in Hfin.
  unfold removed in Hfin. revert Hfin. norm. rewrite lookup_insert_eq, Hs'.
  intros [= Heq]. rewrite Heq in Hx'. done.
Qed.

End Claims.

(** [two_expiring] after its sweep. *)
Definition after_sweep : World (list Seen) :=
  final (_visit_subscriber (probe 0) 0 two_expiring).

Example two_expiring_swept :
  _visit_subscriber (probe 0) 0 two_expiring = Ok tt after_sweep.
Proof. vm_compute. reflexivity. Qed.




(** C9, witness: the evicted first subscriber of [two_expiring] has been
    counted once. *)
Lemma sweep_counts_every_entry_witness :
  ∃ w',
    _visit_subscriber (probe 0) 0 two_expiring = Ok tt w' ∧
    heap w' !! 0 = Some (count_visit first_data) ∧
    visitCount (count_visit first_data) = 1.
Proof.
  apply (sweep_counts_every_entry (probe 0) 0 registry_of_two two_expiring 1 0 first_data).
  - apply two_registered_wf.
  - apply two_registered_registry.
  - by left.
  - apply two_registered_first.
Defined.

(** ** More sample stores *)

Definition returns {E A} (r : Result E A) : bool :=
  match r with Ok _ _ => true | Throw _ _ => false end.

(** A registry and two subscribers, nobody registered yet. *)
Definition nobody_registered : World (list Seen) :=
  final ((let* wd := new_WatchDog in
          let* a := new_subscriber true false in
          let* b := new_subscriber true true in
          ret tt) (empty_world [])).

Definition empty_registry : WatchDog :=
  {| _watchdogDataMap := []; _counter := 0; _currentTime := 0; _timer := None |}.

Definition unregistered_subscriber (seen : bool) : ISubscriber :=
  {| _watchDog := None; _watchDogData := None; watchdogReset := true;
     keepAlive := None; onClientSeen := seen |}.

Example nobody_registered_registry :
  watchdogs nobody_registered !! 0 = Some empty_registry ∧
  subscribers nobody_registered !! 0 = Some (unregistered_subscriber false).
Proof. split; vm_compute; reflexivity. Qed.

Example empty_registry_timer_ok : timer_ok empty_registry.
Proof. unfold timer_ok. cbn. split; [by intros [? ?] | lia]. Qed.

(** Two registries, each with one subscriber; both entries have key 1. *)
Definition two_registries : World (list Seen) :=
  final ((let* a := new_WatchDog in
          let* b := new_WatchDog in
          let* x := new_subscriber true false in
          let* y := new_subscriber true false in
          addSubscriber (probe a) a x (JNumber 50) ;;;
          addSubscriber (probe a) b y (JNumber 50)) (empty_world [])).

(** The first subscriber of [two_registered 0] with its [_watchDogData]
    cleared behind the registry's back. *)
Definition data_cleared : World (list Seen) :=
  set_subscribers
    (insert 0 {| _watchDog := Some 0; _watchDogData := None; watchdogReset := true;
                 keepAlive := Some 0; onClientSeen := false |})
    (two_registered 0).

Section SampleTimers.
Context {E : Type} (H : Handlers E).






End SampleTimers.


(** C3, witness: a timeout of 0 is stored as 1000. *)
Lemma timeout_defaults_only_when_falsy_witness :
  ∃ w' d data,
    addSubscriber (probe 0) 0 0 (JNumber 0) nobody_registered = Ok 1 w' ∧
    heap w' !! d = Some data ∧ timeout data = 1000%float.
Proof.
  destruct (timeout_defaults_only_when_falsy (probe 0) 0 0 (JNumber 0)
              empty_registry (unregistered_subscriber false) nobody_registered)
    as (w' & wd' & sub' & d & data & Hrun & _ & _ & _ & _ & Hd & Hdef & _).
  - apply nobody_registered_registry.
  - apply nobody_registered_registry.
  - reflexivity.
  - reflexivity.
  - reflexivity.
  - apply empty_registry_timer_ok.
  - left. vm_compute. reflexivity.
  - exists w', d, data. split; [exact Hrun|]. split; [exact Hd|].
    apply Hdef. vm_compute. reflexivity.
Defined.

(** C3, counterexample: the negative timeout -5 is not a valid positive
    number, yet the entry is stored with -5, not with 1000. *)
Lemma negative_timeout_is_stored :
  returns (addSubscriber (probe 0) 0 0 (JNumber (-5)) nobody_registered) = true ∧
  timeout <$> heap (final (addSubscriber (probe 0) 0 0 (JNumber (-5)) nobody_registered)) !! 0
    = Some (-5)%float ∧
  ((-5) <? 0)%float = true ∧ ((-5) =? 1000)%float = false.
Proof. repeat split; vm_compute; reflexivity. Qed.


(** A host whose [onClientSeen] throws; it does not call back into the
    registry. *)
Definition throwing_onClientSeen : Host (list Seen) :=
  {| run_timeout_listeners := λ _, ret tt;
     run_watchdogReset := λ _, ret tt;
     run_onClientSeen := λ _, throw (Error "onClientSeen failed") |}.

Example throwing_onClientSeen_free : reentry_free throwing_onClientSeen.
Proof. repeat split; intros ? w; by destruct w. Qed.




(** C6, witness: unregistering a subscriber that never was registered. *)
Lemma unregister_is_idempotent_witness :
  removeSubscriber 0 0 nobody_registered = Ok tt nobody_registered.
Proof.
  apply (proj1 (unregister_is_idempotent 0 0 nobody_registered)
           (unregistered_subscriber false)).
  - apply nobody_registered_registry.
  - reflexivity.
Defined.

(** C7, witness: unregistering the first subscriber of [two_registered 0]. *)
Lemma explicit_removal_never_resets_witness :
  ∃ w' wd',
    removeSubscriber 0 0 (two_registered 0) = Ok tt w' ∧
    calls w' = calls (two_registered 0) ∧
    watchdogs w' !! 0 = Some wd' ∧
    _watchdogDataMap wd' = obj_delete 1 [(1, 0); (2, 1)].
Proof.
  destruct (explicit_removal_never_resets (probe 0) 0 registry_of_two 1 0 first_data
              (registered_subscriber 0 0 0 false) (two_registered 0))
    as (w' & wd' & Hrun & Hcalls & _ & _ & Hwd' & Hmap & _).
  - apply two_registered_wf.
  - apply two_registered_registry.
  - by left.
  - apply two_registered_first.
  - apply two_registered_first.
  - exists w', wd'. split; [exact Hrun|]. split; [exact Hcalls|].
    split; [exact Hwd' | exact Hmap].
Defined.

(** C8, witness: the keep-alive callback of a subscriber that is not
    registered. *)
Lemma keepAlive_without_entry_throws_witness :
  ∃ e, keepAliveFunc (probe 0) 0 nobody_registered = Throw e nobody_registered.
Proof.
  destruct (keepAlive_without_entry_throws (probe 0) 0 (unregistered_subscriber false)
              nobody_registered) as (e & Hrun & _).
  - apply nobody_registered_registry.
  - left. reflexivity.
  - exists e. exact Hrun.
Defined.

(** C10, witness: a subscriber whose [_watchDogData] was cleared. *)
Lemma removeSubscriber_rejects_inconsistent_witness :
  removeSubscriber 0 0 data_cleared = Throw (Error "Internal error") data_cleared.
Proof.
  apply (proj1 (removeSubscriber_rejects_inconsistent 0 0
           {| _watchDog := Some 0; _watchDogData := None; watchdogReset := true;
              keepAlive := Some 0; onClientSeen := false |} 0 data_cleared
           ltac:(apply lookup_insert_eq) eq_refl)).
  reflexivity.
Defined.

(** C10, counterexample: the second subscriber is registered with registry 1
    and its entry is not in the table of registry 0 (whose only entry is
    that of the first subscriber); [removeSubscriber] on registry 0 returns
    normally all the same, and has deleted the first subscriber's entry. *)
Lemma foreign_subscriber_is_not_rejected :
  (_watchDog <$> subscribers two_registries !! 1) = Some (Some 1) ∧
  (_watchDogData <$> subscribers two_registries !! 1) = Some (Some 1) ∧
  (_watchdogDataMap <$> watchdogs two_registries !! 0) = Some [(1, 0)] ∧
  returns (removeSubscriber 0 1 two_registries) = true ∧
  (_watchdogDataMap <$> watchdogs (final (removeSubscriber 0 1 two_registries)) !! 0)
    = Some [] ∧
  (_watchDog <$> subscribers (final (removeSubscriber 0 1 two_registries)) !! 0)
    = Some (Some 0).
Proof. repeat split; vm_compute; reflexivity. Qed.

(** * Further properties of the registry *)

(** ** Keys are handed out in increasing order *)

(** Every key of the table has been handed out ([<= _counter]) and the
    table lists its keys in ascending order. *)
Definition keys_ok (wd : WatchDog) : Prop :=
  Forall (λ p, p.1 ≤ _counter wd) (_watchdogDataMap wd) ∧
  StronglySorted N.lt (Object_keys (_watchdogDataMap wd)).

(** A registry as the methods leave it: entries and subscribers agree
    ([wf]) and the keys are in order. *)
Definition consistent {E} (w : World E) (this : N) : Prop :=
  wf w this ∧ ∀ wd, watchdogs w !! this = Some wd → keys_ok wd.

Lemma obj_set_above k v m :
  Forall (λ p, p.1 < k) m → obj_set k v m = m ++ [(k, v)].
Proof.
  induction m as [|[k' v'] m IH]; intros Hall; [done|].
  apply Forall_cons in Hall as [Hk Hall]. cbn [fst] in Hk. cbn [obj_set].
  destruct (k <? k') eqn:Hlt; [apply N.ltb_lt in Hlt; lia|].
  destruct (k =? k') eqn:Heq; [apply N.eqb_eq in Heq; lia|].
  cbn [app]. f_equal. by apply IH.
Qed.

Lemma keys_ok_fresh wd :
  keys_ok wd →
  Forall (λ p, p.1 < _counter wd + 1) (_watchdogDataMap wd) ∧
  hasOwnProperty (_watchdogDataMap wd) (_counter wd + 1) = false.
Proof.
  intros [Hle _].
  assert (Forall (λ p : N * N, p.1 < _counter wd + 1) (_watchdogDataMap wd)) as Hlt.
  { eapply Forall_impl; [exact Hle|]. intros p Hp. cbn beta in Hp. lia. }
  split; [done|]. apply hasOwnProperty_false. intros Hin.
  apply list_elem_of_fmap in Hin as (p & Hk & Hp).
  rewrite Forall_forall in Hlt. specialize (Hlt p Hp). cbn beta in Hlt. lia.
Qed.

Lemma keys_ok_append wd wd' d :
  keys_ok wd →
  _watchdogDataMap wd' = _watchdogDataMap wd ++ [(_counter wd + 1, d)] →
  _counter wd' = _counter wd + 1 →
  keys_ok wd'.
Proof.
  intros [Hle Hsorted] Hmap Hc. split; rewrite Hmap.
  - rewrite Hc. apply Forall_app. split.
    + eapply Forall_impl; [exact Hle|]. intros p Hp. cbn beta in Hp. lia.
    + apply Forall_singleton. cbn. lia.
  - unfold Object_keys. rewrite map_app. cbn [map fst].
    apply StronglySorted_app_2; [|done|repeat constructor].
    intros k1 k2 Hk1 Hk2. apply list_elem_of_singleton in Hk2 as ->.
    apply list_elem_of_fmap in Hk1 as (p & -> & Hp).
    rewrite Forall_forall in Hle. specialize (Hle p Hp). cbn beta in Hle. lia.
Qed.

Lemma StronglySorted_keys_filter (P : N * N → Prop) `{!∀ p, Decision (P p)} (m : list (N * N)) :
  StronglySorted N.lt (Object_keys m) → StronglySorted N.lt (Object_keys (filter P m)).
Proof.
  unfold Object_keys. induction m as [|p m IH]; intros Hs; [done|].
  cbn [map] in Hs. apply StronglySorted_inv in Hs as [Hs Hall].
  rewrite filter_cons. destruct (decide (P p)); [|by apply IH].
  cbn [map]. constructor; [by apply IH|].
  rewrite Forall_forall in *. intros k Hk. apply Hall.
  apply list_elem_of_fmap in Hk as (q & -> & Hq).
  apply list_elem_of_filter in Hq as [_ Hq].
  apply list_elem_of_fmap. by exists q.
Qed.

Lemma keys_ok_filter (P : N * N → Prop) `{!∀ p, Decision (P p)} wd wd' :
  keys_ok wd →
  _watchdogDataMap wd' = filter P (_watchdogDataMap wd) →
  _counter wd' = _counter wd →
  keys_ok wd'.
Proof.
  intros [Hle Hs] Hmap Hc. split; rewrite Hmap.
  - rewrite Hc. rewrite Forall_forall in *. intros p Hp.
    apply list_elem_of_filter in Hp as [_ Hp]. by apply Hle.
  - by apply StronglySorted_keys_filter.
Qed.

(** ** Registration on a consistent registry *)

Section Registration.
Context {E : Type} (H : Handlers E).
Implicit Types (w : World E).

(** Old entries are not disturbed by the registration of an unbound
    subscriber. *)
Lemma entry_ok_added this that s n wd sub w p :
  keepAlive sub = None →
  subscribers w !! s = Some sub →
  entry_ok w that p → entry_ok (added H this s n wd sub w) that p.
Proof.
  intros Hk Hs (data & sub0 & Hd & Hkey & Hs0 & Hrest).
  exists data, sub0.
  assert (p.2 ≠ fresh (dom (heap w))) as Hne.
  { intros Heq. pose proof (is_fresh (dom (heap w))) as Hfresh.
    apply Hfresh. rewrite <- Heq. apply elem_of_dom. by eexists. }
  assert (subscriber data ≠ s) as Hsne.
  { intros Heq. rewrite Heq in Hs0. destruct Hrest as (_ & _ & [f Hf] & _). congruence. }
  unfold added, entered. destruct (onClientSeen sub); norm.
  all: rewrite lookup_insert_ne by done.
  all: rewrite !lookup_insert_ne by done.
  all: done.
Qed.

Lemma js_or_number v :
  truthy v = false ∨ isNumber v = true → ∃ n, js_or v (JNumber 1000) = JNumber n.
Proof.
  intros Hv. unfold js_or. destruct (truthy v) eqn:Htr; [|by eexists].
  destruct Hv as [?|Hnum]; [done|]. destruct v; try done. by eexists.
Qed.

Lemma added_registry this s n wd sub w :
  watchdogs (added H this s n wd sub w) !! this =
    Some (set_timer (Some (default (setInterval this 1000) (_timer wd)))
            (set_dataMap (obj_set (_counter wd + 1) (fresh (dom (heap w)))
                            (_watchdogDataMap wd))
               (set_counter (_counter wd + 1) (set_currentTime (now w) wd)))).
Proof. unfold added. norm. apply lookup_insert_eq. Qed.

Lemma added_other_registry this that s n wd sub w :
  that ≠ this →
  watchdogs (added H this s n wd sub w) !! that = watchdogs w !! that.
Proof.
  intros Hne. unfold added, entered. destruct (onClientSeen sub); norm;
    by rewrite !lookup_insert_ne.
Qed.

(** What [addSubscriber] does with an unbound subscriber and a consistent
    registry: it returns the next key and leaves [added]. *)
Lemma addSubscriber_next_key this s v wd sub w :
  consistent w this → watchdogs w !! this = Some wd →
  subscribers w !! s = Some sub →
  watchdogReset sub = true → keepAlive sub = None →
  truthy v = false ∨ isNumber v = true →
  ∃ n, js_or v (JNumber 1000) = JNumber n ∧
       Forall (λ p, p.1 < _counter wd + 1) (_watchdogDataMap wd) ∧
       addSubscriber H this s v w = Ok (_counter wd + 1) (added H this s n wd sub w).
Proof.
  intros [Hwf Hkeys] Hwd Hs Hr Hk Hv.
  destruct (js_or_number v Hv) as [n Hn].
  destruct (keys_ok_fresh wd (Hkeys _ Hwd)) as [Hlt Hfresh].
  destruct Hwf as (wd0 & Hwd0 & _ & _ & Ht).
  assert (wd0 = wd) as -> by congruence.
  exists n. split; [done|]. split; [done|].
  by apply addSubscriber_fresh.
Qed.

(** [added] keeps the consistent registries consistent. *)
Lemma consistent_added this that s n wd sub w :
  consistent w this → watchdogs w !! this = Some wd →
  subscribers w !! s = Some sub →
  watchdogReset sub = true → keepAlive sub = None →
  consistent w that →
  consistent (added H this s n wd sub w) that.
Proof.
  intros [Hwf Hkeys] Hwd Hs Hr Hk [Hwf' Hkeys'].
  destruct (keys_ok_fresh wd (Hkeys _ Hwd)) as [Hlt Hfresh].
  pose proof Hwf as (wd0 & Hwd0 & Hnd & Hall & Ht).
  assert (wd0 = wd) as -> by congruence.
  destruct (decide (that = this)) as [->|Hne].
  - split.
    + eexists. split; [apply added_registry|]. norm.
      rewrite obj_set_above by done. split; [|split].
      * unfold Object_keys. rewrite map_app. apply NoDup_app. split; [exact Hnd|].
        split; [|apply NoDup_singleton].
        intros k Hk1 Hk2. apply list_elem_of_singleton in Hk2 as ->.
        apply list_elem_of_fmap in Hk1 as (p & Hp1 & Hp).
        rewrite Forall_forall in Hlt. specialize (Hlt p Hp). cbn in Hlt, Hp1. lia.
      * apply Forall_app. split.
        -- eapply Forall_impl; [exact Hall|]. intros p. by apply entry_ok_added.
        -- apply Forall_singleton. eexists _, _. cbn [fst snd].
           unfold added, entered.
           split; [destruct (onClientSeen sub); norm; apply lookup_insert_eq|].
           norm. split; [done|].
           split; [apply lookup_insert_eq|]. norm. rewrite Hr.
           repeat split; by eexists.
      * unfold timer_ok. norm. rewrite length_Object_keys, length_app. cbn [length].
        split; [intros _; lia | intros _; by eexists].
    + intros wd' Hwd'. rewrite added_registry in Hwd'. injection Hwd' as <-.
      eapply (keys_ok_append wd); [by apply Hkeys | | done].
      norm. by apply obj_set_above.
  - destruct Hwf' as (wd' & Hwd' & Hnd' & Hall' & Ht').
    split.
    + exists wd'. split; [by rewrite added_other_registry|].
      split; [done|]. split; [|done].
      eapply Forall_impl; [exact Hall'|]. intros p. by apply entry_ok_added.
    + intros wd'' Hwd''. rewrite added_other_registry in Hwd'' by done.
      by apply Hkeys'.
Qed.

(** A call of [addSubscriber] that returns has passed its assertions on
    the arguments. *)
Lemma addSubscriber_Ok_args this s v k wd sub w w' :
  watchdogs w !! this = Some wd → subscribers w !! s = Some sub →
  addSubscriber H this s v w = Ok k w' →
  watchdogReset sub = true ∧ keepAlive sub = None ∧
  (truthy v = false ∨ isNumber v = true).
Proof.
  intros Hwd Hs.
  destruct (js_or v (JNumber 1000)) as [|n|str] eqn:Hv;
    [unfold addSubscriber; rewrite Hv; by run|
    |unfold addSubscriber; rewrite Hv; by run].
  destruct (watchdogReset sub) eqn:Hr;
    [|unfold addSubscriber; by run].
  destruct (keepAlive sub) as [f|] eqn:Hk;
    [unfold addSubscriber; by run|].
  intros _. split; [done|]. split; [done|].
  unfold js_or in Hv. destruct (truthy v); [right | by left].
  by rewrite Hv.
Qed.

(** X2.  Such a registration keeps every consistent registry of the store
    consistent, the one registered with and the others. *)
Theorem registration_keeps_consistent this that s v wd sub w :
  consistent w this → watchdogs w !! this = Some wd →
  subscribers w !! s = Some sub →
  watchdogReset sub = true → keepAlive sub = None →
  truthy v = false ∨ isNumber v = true →
  consistent w that →
  consistent (final (addSubscriber H this s v w)) that.
Proof.
  intros Hcons Hwd Hs Hr Hk Hv Hcons'.
  destruct (addSubscriber_next_key this s v wd sub w Hcons Hwd Hs Hr Hk Hv)
    as (n & Hn & Hlt & ->).
  cbn [final]. by apply consistent_added.
Qed.

End Registration.

(** ** Properties of the registries alone

    A relation between the registry tables of two stores is kept by every
    command that writes no registry. *)

Definition on_registries {E} (Rw : relation (gmap N WatchDog)) : relation (World E) :=
  λ w w', Rw (watchdogs w) (watchdogs w').

Section OnRegistries.
Context {E : Type} (Rw : relation (gmap N WatchDog)) `{!PreOrder Rw}.

Global Instance on_registries_preorder : PreOrder (on_registries (E:=E) Rw).
Proof.
  split; [intros w; unfold on_registries; reflexivity|].
  intros w1 w2 w3 H12 H23. unfold on_registries in *. by etrans.
Qed.

Lemma keeps_registries_subscriber s f :
  keeps (on_registries Rw) (update_subscriber (E:=E) s f).
Proof.
  apply keeps_update_subscriber; [apply _|]. intros w sub _.
  unfold on_registries. reflexivity.
Qed.

Lemma keeps_registries_data d f :
  keeps (on_registries Rw) (update_data (E:=E) d f).
Proof.
  apply keeps_update_data; [apply _|]. intros w data _.
  unfold on_registries. reflexivity.
Qed.

Lemma keeps_registries_new_object data :
  keeps (on_registries Rw) (new_object (E:=E) data).
Proof. intros w. unfold on_registries. reflexivity. Qed.

Lemma keeps_registries_call_out c (cb : M E unit) :
  outside cb → keeps (on_registries Rw) (call_out c cb).
Proof.
  intros Ho w. rewrite call_out_outside by done. unfold on_registries. reflexivity.
Qed.

Lemma keeps_registries_watchdog this f :
  (∀ W wd, W !! this = Some wd → Rw W (<[this:=f wd]> W)) →
  keeps (on_registries Rw) (update_watchdog (E:=E) this f).
Proof.
  intros Hf. apply keeps_update_watchdog; [apply _|]. intros w wd Hwd.
  unfold on_registries. by apply Hf.
Qed.

End OnRegistries.

(** Runs through a method, leaving the writes of registries to [prim]. *)
Ltac registries_go prim :=
  repeat first
    [ prim
    | apply keeps_registries_subscriber; apply _
    | apply keeps_registries_data; apply _
    | apply keeps_registries_new_object; apply _
    | apply keeps_registries_call_out; [apply _ | apply outside_quietly]
    | apply keeps_subscriberCount; apply _
    | apply keeps_ret; apply _
    | apply keeps_throw; apply _
    | apply keeps_assert; apply _
    | apply keeps_the_watchdog; apply _
    | apply keeps_the_subscriber; apply _
    | apply keeps_the_data; apply _
    | apply keeps_tick; apply _
    | apply keeps_filter; [apply _ | intros ?]
    | apply keeps_forEach; [apply _ | intros ?]
    | apply keeps_bind; [apply _ | | intros ?]
    | match goal with
      | |- keeps _ (match ?x with _ => _ end) => destruct x
      end ].

(** *** Registries do not write each other *)

(** The registries other than [this] are what they were. *)
Definition others_same (this : N) : relation (gmap N WatchDog) :=
  λ W W', ∀ that, that ≠ this → W' !! that = W !! that.

(** The registry [this] is still there, with the same [_counter]. *)
Definition counter_same (this : N) : relation (gmap N WatchDog) :=
  λ W W', ∀ wd, W !! this = Some wd →
          ∃ wd', W' !! this = Some wd' ∧ _counter wd' = _counter wd.

Global Instance others_same_preorder this : PreOrder (others_same this).
Proof.
  split; [by intros W that|].
  intros W1 W2 W3 H12 H23 that Hne. by rewrite H23, H12.
Qed.

Global Instance counter_same_preorder this : PreOrder (counter_same this).
Proof.
  split; [intros W wd Hwd; by exists wd|].
  intros W1 W2 W3 H12 H23 wd Hwd.
  destruct (H12 _ Hwd) as (wd2 & Hwd2 & Hc2).
  destruct (H23 _ Hwd2) as (wd3 & Hwd3 & Hc3).
  exists wd3. split; [done | congruence].
Qed.

Section Frames.
Context {E : Type} (H : Handlers E).
Implicit Types (w : World E).

Lemma others_same_insert this f W wd :
  W !! this = Some wd → others_same this W (<[this:=f wd]> W).
Proof. intros _ that Hne. by rewrite lookup_insert_ne. Qed.

Lemma counter_same_insert this W wd wd' :
  W !! this = Some wd → _counter wd' = _counter wd →
  counter_same this W (<[this:=wd']> W).
Proof.
  intros Hwd Hc wd0 Hwd0. assert (wd0 = wd) as -> by congruence.
  exists wd'. split; [apply lookup_insert_eq | exact Hc].
Qed.

Ltac others_go this :=
  registries_go ltac:(apply keeps_registries_watchdog; [apply _ | apply others_same_insert]).

Ltac counter_go this :=
  registries_go ltac:(apply keeps_registries_watchdog;
                        [apply _ | intros ? ? ?; by eapply counter_same_insert]).

Lemma addSubscriber_others this s v :
  keeps (on_registries (others_same this)) (addSubscriber H this s v).
Proof. unfold addSubscriber, _start_timer, getCurrentSystemTick. others_go this. Qed.

Lemma removeSubscriber_others this s :
  keeps (on_registries (others_same this)) (removeSubscriber (E:=E) this s).
Proof. unfold removeSubscriber, _stop_timer. others_go this. Qed.

Lemma visit_others this :
  keeps (on_registries (others_same this)) (_visit_subscriber H this).
Proof.
  unfold _visit_subscriber, visit_one, emit_timeout, evict_one, removeSubscriber,
    _stop_timer, getCurrentSystemTick.
  others_go this.
Qed.

Lemma removeSubscriber_counter this s :
  keeps (on_registries (counter_same this)) (removeSubscriber (E:=E) this s).
Proof. unfold removeSubscriber, _stop_timer. counter_go this. Qed.

Lemma visit_counter this :
  keeps (on_registries (counter_same this)) (_visit_subscriber H this).
Proof.
  unfold _visit_subscriber, visit_one, emit_timeout, evict_one, removeSubscriber,
    _stop_timer, getCurrentSystemTick.
  counter_go this.
Qed.

End Frames.

Lemma length_obj_delete (m : list (N * N)) k :
  NoDup (Object_keys m) → k ∈ Object_keys m →
  S (length (obj_delete k m)) = length m.
Proof.
  unfold Object_keys, obj_delete.
  induction m as [|[k' d'] m IH]; intros Hnd Hin; [by apply not_elem_of_nil in Hin|].
  cbn [map fst] in *. apply NoDup_cons in Hnd as [Hk' Hnd].
  destruct (decide (k' = k)) as [->|Hne].
  - rewrite filter_cons_False by (cbn; by intros ?). cbn [length]. f_equal.
    transitivity (length (filter (λ p : N * N, True) m)).
    + f_equal. apply filter_iff_elem. intros p Hp. split; [done|].
      intros _ Heq. apply Hk'. apply list_elem_of_fmap. by exists p.
    + f_equal. clear. induction m as [|p m IH]; [done|].
      by rewrite filter_cons_True, IH.
  - rewrite filter_cons_True by done. cbn [length]. f_equal. apply IH; [done|].
    apply elem_of_cons in Hin as [?|?]; [congruence | done].
Qed.

(** ** Construction, removal, sweep and shutdown on consistent registries *)

Section Lifecycle.
Context {E : Type} (H : Handlers E).
Implicit Types (w : World E).

(** X3.  [new WatchDog()] makes a registry at a reference that was not in
    use: it is consistent, has no subscriber and no timer, passes
    [shutdown] at once, and the store is otherwise untouched. *)
Theorem constructor_makes_an_empty_registry w :
  ∃ this w',
    new_WatchDog w = Ok this w' ∧
    watchdogs w !! this = None ∧
    consistent w' this ∧
    subscriberCount this w' = Ok 0 w' ∧
    shutdown this w' = Ok tt w' ∧
    (∀ that, that ≠ this → watchdogs w' !! that = watchdogs w !! that) ∧
    subscribers w' = subscribers w ∧ heap w' = heap w ∧ calls w' = calls w.
Proof.
  eexists _, _. split; [reflexivity|].
  split; [apply not_elem_of_dom, is_fresh|].
  split.
  { split.
    - eexists. split; [norm; apply lookup_insert_eq|]. norm.
      split; [constructor|]. split; [constructor|].
      unfold timer_ok; norm. split; [by intros [? ?] | cbn; lia].
    - intros wd. norm. rewrite lookup_insert_eq. intros [= <-].
      split; norm; constructor. }
  split; [erewrite subscriberCount_Ok by (norm; apply lookup_insert_eq); done|].
  split; [unfold shutdown; by run|].
  split; [|done]. intros that Hne. norm. by rewrite lookup_insert_ne.
Qed.

(** The registry that [removed] leaves. *)
Lemma removed_registry this s k wd sub w :
  ∃ wd', watchdogs (removed this s k wd sub w) !! this = Some wd' ∧
         _watchdogDataMap wd' = obj_delete k (_watchdogDataMap wd) ∧
         _counter wd' = _counter wd ∧
         _timer wd' = if N.of_nat (length (Object_keys (_watchdogDataMap wd'))) =? 0
                      then None else _timer wd.
Proof.
  eexists. split; [unfold removed; norm; apply lookup_insert_eq|].
  destruct (_ =? 0) eqn:Hz; norm; by rewrite ?Hz.
Qed.

(** [removeSubscriber] of the subscriber of a table entry leaves [removed]. *)
Lemma removeSubscriber_entry this wd k d data w :
  wf w this → watchdogs w !! this = Some wd →
  (k, d) ∈ _watchdogDataMap wd → heap w !! d = Some data →
  ∃ sub, subscribers w !! subscriber data = Some sub ∧
         removeSubscriber this (subscriber data) w
         = Ok tt (removed this (subscriber data) k wd sub w).
Proof.
  intros Hwf Hwd Hin Hd.
  pose proof Hwf as (wd0 & Hwd0 & Hnd & Hall & Ht).
  assert (wd0 = wd) as -> by congruence.
  rewrite Forall_forall in Hall.
  destruct (Hall _ Hin) as (data0 & sub & Hd0 & Hk0 & Hs & Hx & Hdd & Hka & Hr).
  cbn [fst snd] in *. assert (data0 = data) as -> by congruence.
  assert (k ∈ Object_keys (_watchdogDataMap wd)) as Hkin.
  { apply list_elem_of_fmap. by exists (k, d). }
  exists sub. split; [done|]. rewrite <- Hk0.
  apply (removeSubscriber_registered this _ sub this d data wd w Hs Hx Hdd Hd Hka Hwd).
  - rewrite Hk0. by apply hasOwnProperty_true.
  - apply Ht. destruct (Object_keys (_watchdogDataMap wd)); [|cbn; lia].
    by apply not_elem_of_nil in Hkin.
Qed.

(** [removed] keeps the registry consistent. *)
Lemma consistent_removed this wd k d data sub w :
  consistent w this → watchdogs w !! this = Some wd →
  (k, d) ∈ _watchdogDataMap wd → heap w !! d = Some data →
  subscribers w !! subscriber data = Some sub →
  consistent (removed this (subscriber data) k wd sub w) this.
Proof.
  intros [Hwf Hkeys] Hwd Hin Hd Hs. split; [by eapply wf_removed|].
  intros wd'' Hwd''.
  destruct (removed_registry this (subscriber data) k wd sub w) as (wd' & Hwd' & Hmap' & Hc & _).
  assert (wd'' = wd') as -> by congruence.
  eapply keys_ok_filter; [by apply Hkeys | exact Hmap' | exact Hc].
Qed.

(** X4.  Unregistering a registered subscriber lowers [subscriberCount] by
    exactly one, leaves [_counter] alone (the key is not handed out again)
    and keeps the registry consistent. *)
Theorem unregister_decrements_count this wd k d data w :
  consistent w this → watchdogs w !! this = Some wd →
  (k, d) ∈ _watchdogDataMap wd → heap w !! d = Some data →
  ∃ w' wd',
    removeSubscriber this (subscriber data) w = Ok tt w' ∧
    consistent w' this ∧
    watchdogs w' !! this = Some wd' ∧
    _counter wd' = _counter wd ∧
    hasOwnProperty (_watchdogDataMap wd') k = false ∧
    subscriberCount this w = Ok (N.of_nat (length (_watchdogDataMap wd'))  + 1) w.
Proof.
  intros Hcons Hwd Hin Hd. pose proof Hcons as [Hwf Hkeys].
  destruct (removeSubscriber_entry this wd k d data w Hwf Hwd Hin Hd) as (sub & Hs & Hrun).
  destruct (removed_registry this (subscriber data) k wd sub w) as (wd' & Hwd' & Hmap' & Hc & _).
  destruct Hwf as (wd0 & Hwd0 & Hnd & _).
  assert (wd0 = wd) as -> by congruence.
  assert (k ∈ Object_keys (_watchdogDataMap wd)) as Hkin.
  { apply list_elem_of_fmap. by exists (k, d). }
  exists (removed this (subscriber data) k wd sub w), wd'.
  split; [done|]. split; [by eapply consistent_removed|].
  split; [done|]. split; [done|]. split.
  { apply hasOwnProperty_false. rewrite Hmap'. intros Hin'.
    apply list_elem_of_fmap in Hin' as (p & Hp1 & Hp).
    apply list_elem_of_filter in Hp as [Hp _]. by apply Hp. }
  erewrite subscriberCount_Ok by exact Hwd. f_equal.
  rewrite Hmap', length_Object_keys, <- (length_obj_delete _ k Hnd Hkin). lia.
Qed.

(** What a sweep does to a consistent registry. *)
Lemma sweep_consistent this wd w :
  consistent w this → watchdogs w !! this = Some wd →
  ∃ w' wd',
    _visit_subscriber H this w = Ok tt w' ∧
    consistent w' this ∧
    watchdogs w' !! this = Some wd' ∧
    _counter wd' = _counter wd ∧
    _watchdogDataMap wd' =
      filter (λ p, p.2 ∉ expired_batch wd w) (_watchdogDataMap wd).
Proof.
  intros [Hwf Hkeys] Hwd.
  destruct (visit_spec H this wd w Hwf Hwd)
    as (w' & wd' & Hrun & Hwf' & Hwd' & Hmap' & _).
  assert (_counter wd' = _counter wd) as Hc.
  { pose proof (visit_counter H this w) as Hk. rewrite Hrun in Hk. cbn [final] in Hk.
    destruct (Hk wd Hwd) as (wd'' & Hwd'' & Hc). congruence. }
  exists w', wd'. split; [done|]. split; [|done].
  split; [done|]. intros wd'' Hwd''. assert (wd'' = wd') as -> by congruence.
  eapply keys_ok_filter; [by apply Hkeys | exact Hmap' | exact Hc].
Qed.


(** What a sweep leaves of a consistent registry, when the callbacks
    return normally. *)
Lemma sweep_frame this wd w :
  consistent w this → watchdogs w !! this = Some wd →
  ∃ w' wd',
    _visit_subscriber H this w = Ok tt w' ∧
    consistent w' this ∧
    watchdogs w' !! this = Some wd' ∧
    _counter wd' = _counter wd ∧
    (∀ k d, (k, d) ∈ _watchdogDataMap wd' →
       (k, d) ∈ _watchdogDataMap wd ∧
       subscribers w' !! owner (heap w) d = subscribers w !! owner (heap w) d).
Proof.
  intros Hcons Hwd. pose proof Hcons as [Hwf Hkeys].
  destruct (sweep_consistent this wd w Hcons Hwd)
    as (w' & wd' & Hrun & Hcons' & Hwd' & Hc & Hmap').
  destruct (visit_spec H this wd w Hwf Hwd)
    as (w1 & wd1 & Hrun1 & _ & _ & _ & _ & _ & _ & Hframe).
  rewrite Hrun in Hrun1. injection Hrun1 as <-.
  exists w', wd'. split; [done|]. split; [done|].
  split; [done|]. split; [done|].
  intros k d Hin. rewrite Hmap' in Hin.
  apply list_elem_of_filter in Hin as [Hnot Hin]. cbn [snd] in Hnot.
  split; [done|]. apply Hframe. intros d' Hd' Heq.
  destruct Hwf as (wd0 & Hwd0 & Hnd & Hall & _).
  assert (wd0 = wd) as -> by congruence.
  assert (d' ∈ Object_values (_watchdogDataMap wd)) as Hd'in.
  { by apply list_elem_of_filter in Hd' as [_ ?]. }
  apply list_elem_of_fmap in Hd'in as ([k' d''] & Heq' & Hp). cbn [snd] in Heq'. subst d''.
  destruct (entry_ok_unique w this wd k' d' k d) as [_ <-]; done.
Qed.

(** [shutdown] is its assertion. *)
Lemma shutdown_outcome this wd w :
  watchdogs w !! this = Some wd →
  shutdown this w =
    if bool_decide (_timer wd = None)
       && (length (Object_keys (_watchdogDataMap wd)) =? 0)%nat
    then Ok tt w
    else Throw (AssertionError " leaking subscriber in watchdog") w.
Proof. intros Hwd. unfold shutdown. run. by destruct (_ && _). Qed.

(** X6.  [shutdown] never changes the store.  It returns normally exactly
    when the registry has no timer and no entry, and fails the assertion
    " leaking subscriber in watchdog" otherwise; for a registry whose timer
    follows its table this is: exactly when no subscriber is registered. *)
Theorem shutdown_reports_leaks this wd w :
  watchdogs w !! this = Some wd →
  (shutdown this w = Ok tt w ∨
   shutdown this w = Throw (AssertionError " leaking subscriber in watchdog") w) ∧
  (shutdown this w = Ok tt w ↔ _timer wd = None ∧ _watchdogDataMap wd = []) ∧
  (timer_ok wd → (shutdown this w = Ok tt w ↔ _watchdogDataMap wd = [])).
Proof.
  intros Hwd. rewrite (shutdown_outcome this wd w Hwd), length_Object_keys.
  assert (Hiff : bool_decide (_timer wd = None)
                 && (length (_watchdogDataMap wd) =? 0)%nat = true
                 ↔ _timer wd = None ∧ _watchdogDataMap wd = []).
  { rewrite andb_true_iff, bool_decide_eq_true, Nat.eqb_eq.
    split; intros [? Hl]; (split; [done|]).
    - by destruct (_watchdogDataMap wd).
    - by rewrite Hl. }
  destruct (_ && _) eqn:Hb.
  - split; [by left|]. split; [by rewrite <- Hiff|].
    intros _. split; [intros _; by apply Hiff | done].
  - split; [by right|].
    assert (¬ (_timer wd = None ∧ _watchdogDataMap wd = [])) as Hn.
    { intros Hc. apply Hiff in Hc. done. }
    split; [split; [done | intros Hc; by destruct Hn]|].
    intros Ht. split; [done|]. intros Hl. destruct Hn. split; [|done].
    destruct (_timer wd) eqn:Htm; [|done].
    assert (is_Some (_timer wd)) as Hsome by (by rewrite Htm).
    apply Ht in Hsome. rewrite length_Object_keys, Hl in Hsome. cbn in Hsome. lia.
Qed.

(** X7.  The methods of one registry never write another registry:
    whatever the outcome of [addSubscriber], [removeSubscriber] or a sweep
    on [this], every other registry of the store is what it was. *)
Theorem registries_are_independent this that w :
  that ≠ this →
  (∀ s v, watchdogs (final (addSubscriber H this s v w)) !! that = watchdogs w !! that) ∧
  (∀ s, watchdogs (final (removeSubscriber this s w)) !! that = watchdogs w !! that) ∧
  watchdogs (final (_visit_subscriber H this w)) !! that = watchdogs w !! that.
Proof.
  intros Hne. split; [|split].
  - intros s v. by apply (addSubscriber_others H this s v w).
  - intros s. by apply (removeSubscriber_others this s w).
  - by apply (visit_others H this w).
Qed.

End Lifecycle.

(** ** Keep-alive *)

Section KeepAlive.
Context {E : Type} (H : Handlers E).
Implicit Types (w : World E).

(** The store after the keep-alive callback of [s] has run: its entry [d]
    carries the tick of the call; [onClientSeen], when there is one, has
    been called on that store. *)
Definition refreshed (s d : N) (data : IWatchdogData2) (sub : ISubscriber) w : World E :=
  let w1 := set_heap (insert d (set_lastSeen (now w) data)) w in
  if onClientSeen sub
  then record_call (CallOnClientSeen s) (onClientSeen_impl H s w1) w1
  else w1.

Lemma keepAliveFunc_registered s sub x d data w :
  subscribers w !! s = Some sub →
  _watchDog sub = Some x → _watchDogData sub = Some d →
  heap w !! d = Some data →
  keepAliveFunc H s w = Ok tt (refreshed s d data sub w).
Proof.
  intros Hs Hx Hd Hdata. unfold keepAliveFunc, refreshed.
  destruct (onClientSeen sub) eqn:Hseen; by run.
Qed.


(** Writing [lastSeen] keeps the registry well formed. *)
Lemma wf_set_lastSeen this d data t w :
  heap w !! d = Some data →
  wf w this → wf (set_heap (insert d (set_lastSeen t data)) w) this.
Proof.
  intros Hd (wd & Hwd & Hnd & Hall & Ht). exists wd.
  split; [done|]. split; [done|]. split; [|done].
  eapply Forall_impl; [exact Hall|].
  intros [k' d'] (data' & sub' & Hd' & Hk' & Hs' & Hrest). cbn [fst snd] in *.
  destruct (decide (d' = d)) as [->|Hne].
  - assert (data' = data) as -> by congruence.
    exists (set_lastSeen t data), sub'. cbn [fst snd]. norm.
    by rewrite lookup_insert_eq.
  - exists data', sub'. cbn [fst snd]. norm. by rewrite lookup_insert_ne.
Qed.

(** A call of [addSubscriber] that returns has bound [keepAlive] of the
    subscriber to the subscriber itself. *)
Lemma addSubscriber_Ok_bound this s v k w w1 :
  addSubscriber H this s v w = Ok k w1 →
  ∃ sub1, subscribers w1 !! s = Some sub1 ∧ keepAlive sub1 = Some s ∧
          _watchDog sub1 = Some this.
Proof.
  destruct (watchdogs w !! this) as [wd|] eqn:Hwd;
    [|unfold addSubscriber; by run].
  destruct (js_or v (JNumber 1000)) as [|n|str] eqn:Hv;
    [unfold addSubscriber; rewrite Hv; by run|
    |unfold addSubscriber; rewrite Hv; by run].
  destruct (subscribers w !! s) as [sub|] eqn:Hs;
    [|unfold addSubscriber; by run].
  destruct (watchdogReset sub) eqn:Hr;
    [|unfold addSubscriber; by run].
  destruct (keepAlive sub) as [f|] eqn:Hk;
    [unfold addSubscriber; by run|].
  rewrite (addSubscriber_unbound H this s v n wd sub w Hwd Hs Hv Hr Hk).
  assert (subscribers (bound_world H this s n wd sub w) !! s
          = Some (set_keepAlive (Some s) (attach this (fresh (dom (heap w))) sub))) as Hl.
  { unfold bound_world. norm. apply lookup_insert_eq. }
  destruct (_ =? 1); destruct (bool_decide _); intros [= <- <-]; eexists; (split; [exact Hl|done]).
Qed.

(** X9.  The members that the registry puts on a subscriber follow its
    registration: whenever [addSubscriber] returns, [keepAlive] of the
    subscriber is the keep-alive callback bound to that very subscriber (so
    that [subscriber.keepAlive()] runs it) and [_watchDog] is the registry;
    whenever [removeSubscriber] returns for a subscriber that had a
    [_watchDog], the subscriber has none of [keepAlive], [_watchDog] and
    [_watchDogData] any more. *)
Theorem keepAlive_member_follows_registration this s w :
  (∀ v k w1, addSubscriber H this s v w = Ok k w1 →
     ∃ sub1, subscribers w1 !! s = Some sub1 ∧
             keepAlive sub1 = Some s ∧ _watchDog sub1 = Some this ∧
             call_keepAlive H s w1 = keepAliveFunc H s w1) ∧
  (∀ sub w1, subscribers w !! s = Some sub → is_Some (_watchDog sub) →
     removeSubscriber this s w = Ok tt w1 →
     ∃ sub1, subscribers w1 !! s = Some sub1 ∧
             keepAlive sub1 = None ∧ _watchDog sub1 = None ∧
             _watchDogData sub1 = None).
Proof.
  split.
  - intros v k w1 Hrun.
    destruct (addSubscriber_Ok_bound this s v k w w1 Hrun) as (sub1 & Hl & Hk & Hx).
    exists sub1. split; [done|]. split; [done|]. split; [done|].
    unfold call_keepAlive.
    by rewrite (bind_Ok _ _ _ _ _ (the_subscriber_Ok _ _ _ Hl)), Hk.
  - intros sub w1 Hs [x Hx] Hrun.
    destruct (removeSubscriber_cases this s w)
      as [e|sub' Hs' Hx'|sub' x' d data wd r Hs' Hx' Hd Hdata Hk Hwd Hin Hfin Hok];
      [done|congruence|].
    subst r. cbn [final] in Hfin. subst w1.
    exists (detach sub'). split; [|done].
    unfold removed. norm. apply lookup_insert_eq.
Qed.

End KeepAlive.

(** ** More facts about binary64 *)




Section Silence.
Context {E : Type} (H : Handlers E).
Implicit Types (w : World E).





(** X13.  A sweep in which no entry is expired emits no "timeout", calls
    no [watchdogReset] and removes nothing: it only records the tick and
    counts the visit of every entry. *)
Theorem sweep_without_expiry_is_silent this wd w :
  wf w this → watchdogs w !! this = Some wd →
  expired_batch wd w = [] →
  ∃ w' wd',
    _visit_subscriber H this w = Ok tt w' ∧
    calls w' = calls w ∧ env w' = env w ∧ subscribers w' = subscribers w ∧
    watchdogs w' !! this = Some wd' ∧
    _watchdogDataMap wd' = _watchdogDataMap wd ∧ _timer wd' = _timer wd ∧
    _currentTime wd' = now w ∧
    heap w' = visited (Object_values (_watchdogDataMap wd)) (heap w).
Proof.
  intros Hwf Hwd Hnone.
  rewrite (visit_unfold H this wd w Hwf Hwd), Hnone. cbn [forEach].
  unfold announced. rewrite Hnone. cbn [length Nat.eqb negb].
  eexists _, _. split; [reflexivity|]. unfold swept.
  repeat (split; [done|]). split; [norm; apply lookup_insert_eq|]. done.
Qed.

End Silence.

Section BadArguments.
Context {E : Type} (H : Handlers E).
Implicit Types (w : World E).

(** X14.  [addSubscriber] rejects a timeout that is neither falsy nor a
    number with the assertion " invalid timeout ", and a subscriber without
    [watchdogReset] with the assertion " the subscriber must provide a
    watchdogReset method "; in both cases nothing is registered: only the
    tick read on entry has been written. *)
Theorem registration_rejects_bad_arguments this s v wd sub w :
  watchdogs w !! this = Some wd →
  subscribers w !! s = Some sub →
  (truthy v = true → isNumber v = false →
     addSubscriber H this s v w =
       Throw (AssertionError " invalid timeout ")
             (set_watchdogs (insert this (set_currentTime (now w) wd)) w)) ∧
  (truthy v = false ∨ isNumber v = true → watchdogReset sub = false →
     addSubscriber H this s v w =
       Throw (AssertionError " the subscriber must provide a watchdogReset method ")
             (set_watchdogs (insert this (set_currentTime (now w) wd)) w)).
Proof.
  intros Hwd Hs. split.
  - intros Htr Hnum. unfold addSubscriber, js_or. rewrite Htr.
    destruct v as [|n|str]; try done; by run.
  - intros Hv Hr. destruct (js_or_number v Hv) as [n Hn].
    unfold addSubscriber. by run.
Qed.

End BadArguments.

(** ** The subscriber's own members *)

(** Every subscriber of the first table is in the second, with the
    [watchdogReset] and [onClientSeen] it had. *)
Definition members_kept : relation (gmap N ISubscriber) :=
  λ S S', ∀ s sub, S !! s = Some sub →
    ∃ sub', S' !! s = Some sub' ∧
            watchdogReset sub' = watchdogReset sub ∧
            onClientSeen sub' = onClientSeen sub.

Definition on_subscribers {E} (Rs : relation (gmap N ISubscriber)) : relation (World E) :=
  λ w w', Rs (subscribers w) (subscribers w').

Global Instance members_kept_preorder : PreOrder members_kept.
Proof.
  split; [intros S s sub Hs; by exists sub|].
  intros S1 S2 S3 H12 H23 s sub Hs.
  destruct (H12 _ _ Hs) as (sub2 & Hs2 & Hr2 & Ho2).
  destruct (H23 _ _ Hs2) as (sub3 & Hs3 & Hr3 & Ho3).
  exists sub3. split; [done|]. split; congruence.
Qed.

Section OnSubscribers.
Context {E : Type} (H : Handlers E).
Implicit Types (w : World E).

Global Instance on_subscribers_preorder : PreOrder (on_subscribers (E:=E) members_kept).
Proof.
  split; [intros w; unfold on_subscribers; reflexivity|].
  intros w1 w2 w3 H12 H23. unfold on_subscribers in *. by etrans.
Qed.

Lemma keeps_members_watchdog this f :
  keeps (on_subscribers members_kept) (update_watchdog (E:=E) this f).
Proof.
  apply keeps_update_watchdog; [apply _|]. intros w wd _.
  unfold on_subscribers. reflexivity.
Qed.

Lemma keeps_members_data d f :
  keeps (on_subscribers members_kept) (update_data (E:=E) d f).
Proof.
  apply keeps_update_data; [apply _|]. intros w data _.
  unfold on_subscribers. reflexivity.
Qed.

Lemma keeps_members_new_object data :
  keeps (on_subscribers members_kept) (new_object (E:=E) data).
Proof. intros w. unfold on_subscribers. reflexivity. Qed.

Lemma keeps_members_call_out c (cb : M E unit) :
  outside cb → keeps (on_subscribers members_kept) (call_out c cb).
Proof.
  intros Ho w. rewrite call_out_outside by done. unfold on_subscribers. reflexivity.
Qed.

Lemma keeps_members_subscriber s f :
  (∀ sub, watchdogReset (f sub) = watchdogReset sub ∧
          onClientSeen (f sub) = onClientSeen sub) →
  keeps (on_subscribers members_kept) (update_subscriber (E:=E) s f).
Proof.
  intros Hf. apply keeps_update_subscriber; [apply _|]. intros w sub Hs s' sub' Hs'.
  norm. destruct (decide (s = s')) as [->|Hne].
  - rewrite lookup_insert_eq. assert (sub' = sub) as -> by congruence.
    exists (f sub). split; [done | apply Hf].
  - rewrite lookup_insert_ne by done. by exists sub'.
Qed.

Ltac members_go :=
  repeat first
    [ apply keeps_members_subscriber; by intros []
    | apply keeps_members_watchdog
    | apply keeps_members_data
    | apply keeps_members_new_object
    | apply keeps_members_call_out; apply outside_quietly
    | apply keeps_subscriberCount; apply _
    | apply keeps_ret; apply _
    | apply keeps_throw; apply _
    | apply keeps_assert; apply _
    | apply keeps_the_watchdog; apply _
    | apply keeps_the_subscriber; apply _
    | apply keeps_the_data; apply _
    | apply keeps_tick; apply _
    | apply keeps_filter; [apply _ | intros ?]
    | apply keeps_forEach; [apply _ | intros ?]
    | apply keeps_bind; [apply _ | | intros ?]
    | match goal with
      | |- keeps _ (match ?x with _ => _ end) => destruct x
      end ].

Lemma addSubscriber_members this s v :
  keeps (on_subscribers members_kept) (addSubscriber H this s v).
Proof. unfold addSubscriber, _start_timer, getCurrentSystemTick. members_go. Qed.

Lemma removeSubscriber_members this s :
  keeps (on_subscribers members_kept) (removeSubscriber (E:=E) this s).
Proof. unfold removeSubscriber, _stop_timer. members_go. Qed.

Lemma keepAliveFunc_members s :
  keeps (on_subscribers members_kept) (keepAliveFunc H s).
Proof. unfold keepAliveFunc, getCurrentSystemTick. members_go. Qed.

Lemma visit_members this :
  keeps (on_subscribers members_kept) (_visit_subscriber H this).
Proof.
  unfold _visit_subscriber, visit_one, emit_timeout, evict_one, removeSubscriber,
    _stop_timer, getCurrentSystemTick.
  members_go.
Qed.

(** X15.  The registry adds and deletes [_watchDog], [_watchDogData] and
    [keepAlive] on a subscriber and nothing else: whatever the outcome of
    [addSubscriber], [removeSubscriber], the keep-alive callback or a
    sweep, every subscriber of the store is still there with the
    [watchdogReset] and the [onClientSeen] it had. *)
Theorem subscriber_members_are_kept this s sub w :
  subscribers w !! s = Some sub →
  (∀ s' v, ∃ sub', subscribers (final (addSubscriber H this s' v w)) !! s = Some sub' ∧
                   watchdogReset sub' = watchdogReset sub ∧
                   onClientSeen sub' = onClientSeen sub) ∧
  (∀ s', ∃ sub', subscribers (final (removeSubscriber this s' w)) !! s = Some sub' ∧
                 watchdogReset sub' = watchdogReset sub ∧
                 onClientSeen sub' = onClientSeen sub) ∧
  (∀ s', ∃ sub', subscribers (final (keepAliveFunc H s' w)) !! s = Some sub' ∧
                 watchdogReset sub' = watchdogReset sub ∧
                 onClientSeen sub' = onClientSeen sub) ∧
  (∃ sub', subscribers (final (_visit_subscriber H this w)) !! s = Some sub' ∧
           watchdogReset sub' = watchdogReset sub ∧
           onClientSeen sub' = onClientSeen sub).
Proof.
  intros Hs. split; [|split; [|split]].
  - intros s' v. by apply (addSubscriber_members this s' v w).
  - intros s'. by apply (removeSubscriber_members this s' w).
  - intros s'. by apply (keepAliveFunc_members s' w).
  - by apply (visit_members this w).
Qed.

End OnSubscribers.

(** ** Round trips and order *)

Lemma obj_delete_appended (m : list (N * N)) k d :
  Forall (λ p, p.1 < k) m → obj_delete k (m ++ [(k, d)]) = m.
Proof.
  intros Hall. unfold obj_delete. rewrite filter_app.
  rewrite (filter_cons_False _ (k, d)) by (cbn; by intros ?).
  rewrite filter_nil, app_nil_r.
  clear d. induction m as [|p m IH]; [done|].
  apply Forall_cons in Hall as [Hp Hall].
  rewrite filter_cons_True by (cbn beta in *; lia). by rewrite IH.
Qed.



Lemma removed_registry_time {E} this s k wd sub (w : World E) wd' :
  watchdogs (removed this s k wd sub w) !! this = Some wd' →
  _currentTime wd' = _currentTime wd.
Proof.
  unfold removed. norm. rewrite lookup_insert_eq. intros [= <-].
  by destruct (_ =? 0).
Qed.

Section RoundTrips.
Context {E : Type} (H : Handlers E).
Implicit Types (w : World E).

(** Registering a subscriber that has none of the registry's members and
    unregistering it at once. *)
Lemma round_trip this s v wd sub w :
  consistent w this → watchdogs w !! this = Some wd →
  subscribers w !! s = Some sub → watchdogReset sub = true →
  _watchDog sub = None → _watchDogData sub = None → keepAlive sub = None →
  truthy v = false ∨ isNumber v = true →
  ∃ w' wd' data,
    (addSubscriber H this s v ;;; removeSubscriber this s) w = Ok tt w' ∧
    watchdogs w' !! this = Some wd' ∧
    _watchdogDataMap wd' = _watchdogDataMap wd ∧
    _timer wd' = _timer wd ∧
    _counter wd' = _counter wd + 1 ∧
    _currentTime wd' = now w ∧
    subscribers w' = subscribers w ∧
    heap w !! fresh (dom (heap w)) = None ∧
    heap w' = <[fresh (dom (heap w)) := data]> (heap w) ∧
    key data = _counter wd + 1 ∧ subscriber data = s ∧
    calls w' = calls w ++ (if onClientSeen sub then [CallOnClientSeen s] else []) ∧
    consistent w' this.
Proof.
  intros Hcons Hwd Hs Hr Hx Hdd Hk Hv.
  destruct (addSubscriber_next_key H this s v wd sub w Hcons Hwd Hs Hr Hk Hv)
    as (n & Hn & Hlt & Hadd).
  pose proof Hcons as [(wd0 & Hwd0 & Hnd & Hall & Ht) Hkeys].
  assert (wd0 = wd) as -> by congruence.
  rewrite (bind_Ok _ _ _ _ _ Hadd). cbv beta.
  pose proof (consistent_added H this this s n wd sub w Hcons Hwd Hs Hr Hk Hcons) as Hcons1.
  set (w1 := added H this s n wd sub w) in *.
  set (d := fresh (dom (heap w))).
  set (data := {| key := _counter wd + 1; subscriber := s; timeout := n;
                  lastSeen := now w; visitCount := 0 |}).
  assert (heap w1 = <[d := data]> (heap w)) as Hheap1.
  { unfold w1, added, entered. by destruct (onClientSeen sub). }
  assert (heap w1 !! d = Some data) as Hd1.
  { rewrite Hheap1. apply lookup_insert_eq. }
  assert (calls w1 = calls w ++ (if onClientSeen sub then [CallOnClientSeen s] else []))
    as Hcalls1.
  { unfold w1, added, entered. destruct (onClientSeen sub); norm; by rewrite ?app_nil_r. }
  pose proof (added_registry H this s n wd sub w) as Hwd1. fold w1 in Hwd1.
  set (wd1 := set_timer _ _) in Hwd1.
  assert (_watchdogDataMap wd1 = _watchdogDataMap wd ++ [(_counter wd + 1, d)]) as Hmap1.
  { unfold wd1. norm. by apply obj_set_above. }
  assert ((_counter wd + 1, d) ∈ _watchdogDataMap wd1) as Hin1.
  { rewrite Hmap1. apply elem_of_app. right. by left. }
  destruct (removeSubscriber_entry this wd1 (_counter wd + 1) d data w1
              (proj1 Hcons1) Hwd1 Hin1 Hd1) as (sub1 & Hs1 & Hrun).
  change (subscriber data) with s in Hs1, Hrun.
  assert (sub1 = set_keepAlive (Some s) (attach this d sub)) as Hsub1.
  { revert Hs1. unfold w1, added. norm. rewrite lookup_insert_eq. by intros [= <-]. }
  destruct (removed_registry this s (_counter wd + 1) wd1 sub1 w1)
    as (wd' & Hwd' & Hmap' & Hc' & Htm').
  assert (_watchdogDataMap wd' = _watchdogDataMap wd) as Hback.
  { rewrite Hmap', Hmap1. by apply obj_delete_appended. }
  assert (_timer wd' = _timer wd) as Htimer.
  { rewrite Htm', Hback. clear Htm'. unfold timer_ok in Ht.
    destruct (N.of_nat (length (Object_keys (_watchdogDataMap wd))) =? 0) eqn:Hz;
      unfold wd1; norm.
    - apply N.eqb_eq in Hz. destruct (_timer wd) as [tm|] eqn:Htm; [|done].
      exfalso. assert (is_Some (Some tm)) as Hsome by (by eexists).
      apply Ht in Hsome. lia.
    - apply N.eqb_neq in Hz.
      assert (is_Some (_timer wd)) as [tm Htm] by (apply Ht; lia).
      by rewrite Htm. }
  exists (removed this s (_counter wd + 1) wd1 sub1 w1), wd', data.
  split; [done|]. split; [done|]. split; [done|]. split; [done|].
  split; [by rewrite Hc'|].
  split; [by rewrite (removed_registry_time _ _ _ _ _ _ _ Hwd')|].
  split.
  { rewrite Hsub1.
    unfold removed, w1, added, entered. destruct (onClientSeen sub); norm.
    all: rewrite !insert_insert_eq.
    all: apply insert_id; rewrite Hs; f_equal.
    all: destruct sub; cbn in *; by subst. }
  split; [apply not_elem_of_dom, is_fresh|].
  split; [exact Hheap1|]. split; [done|]. split; [done|].
  split; [exact Hcalls1|].
  exact (consistent_removed this wd1 (_counter wd + 1) d data sub1 w1
           Hcons1 Hwd1 Hin1 Hd1 Hs1).
Qed.




(** X20.  The timer of a registry is [setInterval] of its own sweep every
    1000 ms.  [_start_timer] fails the assertion " setInterval already
    called ?" when a timer is set, [_stop_timer] fails "_stop_timer already
    called ?" when none is, neither changing the store; starting and then
    stopping gives the store back. *)
Theorem timer_starts_and_stops_once this wd w :
  watchdogs w !! this = Some wd →
  (is_Some (_timer wd) →
     _start_timer this w = Throw (AssertionError " setInterval already called ?") w) ∧
  (_timer wd = None →
     _stop_timer this w = Throw (AssertionError "_stop_timer already called ?") w) ∧
  (_timer wd = None →
     _start_timer this w =
       Ok tt (set_watchdogs (insert this (set_timer (Some (setInterval this 1000)) wd)) w) ∧
     (_start_timer this ;;; _stop_timer this) w = Ok tt w).
Proof.
  intros Hwd. split; [|split].
  - intros [tm Htm]. unfold _start_timer. by run.
  - intros Htm. unfold _stop_timer. by run.
  - intros Htm. split; [unfold _start_timer; by run|].
    unfold _start_timer, _stop_timer. run. f_equal.
    destruct w as [W S hp t c e]. unfold set_watchdogs. cbn in *. f_equal.
    rewrite insert_insert_eq. apply insert_id. rewrite Hwd. f_equal.
    destruct wd; cbn in *. by subst.
Qed.

End RoundTrips.

(** ** Under hosts that do not call back into the registry *)

Section Returned.
Context {E : Type} (H : Handlers E).
Implicit Types (w : World E).

(** X1.  Registering with a consistent registry whose counter is below
    2^53: whenever [addSubscriber] returns, under a host that does not
    call back into the registry, it returns [_counter + 1], a key greater
    than every key of the table; the new entry is a new object at the end
    of the table, [subscriberCount] is one more than the table had, and
    the entry records the key, the subscriber, the tick of the call and no
    visit.  With callbacks that return normally the call returns whenever
    the subscriber has a [watchdogReset], no [keepAlive] and the timeout
    is falsy or a number. *)
Theorem registration_appends_fresh_key (h : Host E) this s v wd sub w :
  consistent w this → watchdogs w !! this = Some wd →
  _counter wd ≤ MAX_SAFE_INTEGER →
  subscribers w !! s = Some sub →
  (reentry_free h → ∀ k w', addSubscriber h this s v w = Ok k w' →
     k = _counter wd + 1 ∧
     Forall (λ p, p.1 < k) (_watchdogDataMap wd) ∧
     ∃ wd' data,
       watchdogs w' !! this = Some wd' ∧
       _counter wd' = k ∧
       _watchdogDataMap wd' = _watchdogDataMap wd ++ [(k, fresh (dom (heap w)))] ∧
       subscriberCount this w' = Ok (N.of_nat (length (_watchdogDataMap wd)) + 1) w' ∧
       heap w !! fresh (dom (heap w)) = None ∧
       heap w' !! fresh (dom (heap w)) = Some data ∧
       key data = k ∧ subscriber data = s ∧
       lastSeen data = now w ∧ visitCount data = 0) ∧
  (watchdogReset sub = true → keepAlive sub = None →
   truthy v = false ∨ isNumber v = true →
   ∃ w', addSubscriber H this s v w = Ok (_counter wd + 1) w').
Proof.
  intros Hcons Hwd Hmax Hs. split.
  - intros Hfree k w' Hrun. apply (addSubscriber_follows h Hfree) in Hrun.
    destruct (addSubscriber_Ok_args (shadow h) this s v k wd sub w w' Hwd Hs Hrun)
      as (Hr & Hk & Hv).
    destruct (addSubscriber_next_key (shadow h) this s v wd sub w Hcons Hwd Hs Hr Hk Hv)
      as (n & Hn & Hlt & Hadd).
    rewrite Hadd in Hrun. injection Hrun as <- <-.
    split; [done|]. split; [exact Hlt|].
    eexists _, _. split; [apply added_registry|]. norm. split; [done|].
    split; [by apply obj_set_above|].
    split.
    { erewrite subscriberCount_Ok by apply added_registry. norm.
      rewrite length_Object_keys, obj_set_above, length_app by done. cbn [length].
      by rewrite Nat2N.inj_add. }
    split.
    { apply not_elem_of_dom. apply is_fresh. }
    split.
    { unfold added, entered. destruct (onClientSeen sub); norm; apply lookup_insert_eq. }
    done.
  - intros Hr Hk Hv.
    destruct (addSubscriber_next_key H this s v wd sub w Hcons Hwd Hs Hr Hk Hv)
      as (n & Hn & Hlt & Hadd).
    by eexists.
Qed.

(** X5.  Whenever a sweep of a consistent registry returns, under a host
    that does not call back into the registry, it leaves the registry
    consistent, with the same [_counter]; every entry that is still in the
    table was there before, and its subscriber has not been touched.  With
    callbacks that return normally the sweep does return. *)
Theorem sweep_keeps_consistent (h : Host E) this wd w :
  consistent w this → watchdogs w !! this = Some wd →
  (reentry_free h → ∀ w', _visit_subscriber h this w = Ok tt w' →
     consistent w' this ∧
     ∃ wd',
       watchdogs w' !! this = Some wd' ∧
       _counter wd' = _counter wd ∧
       (∀ k d, (k, d) ∈ _watchdogDataMap wd' →
          (k, d) ∈ _watchdogDataMap wd ∧
          subscribers w' !! owner (heap w) d = subscribers w !! owner (heap w) d)) ∧
  (∃ w', _visit_subscriber H this w = Ok tt w').
Proof.
  intros Hcons Hwd. split.
  - intros Hfree w' Hrun. apply (visit_follows h Hfree) in Hrun.
    destruct (sweep_frame (shadow h) this wd w Hcons Hwd)
      as (w2 & wd2 & Hrun2 & Hcons2 & Hwd2 & Hc2 & Hframe2).
    rewrite Hrun2 in Hrun. injection Hrun as <-.
    split; [done|]. by exists wd2.
  - destruct (sweep_frame H this wd w Hcons Hwd) as (w' & _ & Hrun & _). by exists w'.
Qed.

(** X8.  The keep-alive callback of a registered subscriber, whatever the
    host does: it first writes the current tick into [lastSeen] of the
    subscriber's entry, and nothing else (the other fields of the entry,
    the other entries, the table and the subscribers are as before), which
    leaves the registry consistent; then it calls [onClientSeen], if the
    subscriber has one, and that is all it does.  A subscriber without
    [onClientSeen] makes it return at once.  When [onClientSeen] does not
    call back into the registry, then whether it returns or throws the
    final store has that [lastSeen], the same table and subscribers, one
    more call in the trace, and the registry is consistent.  With callbacks
    that return normally the keep-alive callback returns. *)
Theorem keepAlive_refreshes_lastSeen (h : Host E) this wd k d data sub w :
  consistent w this → watchdogs w !! this = Some wd →
  (k, d) ∈ _watchdogDataMap wd → heap w !! d = Some data →
  subscribers w !! subscriber data = Some sub →
  ∃ data',
    lastSeen data' = now w ∧
    key data' = key data ∧ subscriber data' = subscriber data ∧
    timeout data' = timeout data ∧ visitCount data' = visitCount data ∧
    keepAliveFunc h (subscriber data) w =
      (if onClientSeen sub
       then call_out (CallOnClientSeen (subscriber data))
                     (run_onClientSeen h (subscriber data))
       else ret tt) (set_heap (insert d data') w) ∧
    consistent (set_heap (insert d data') w) this ∧
    (onClientSeen sub = false →
       keepAliveFunc h (subscriber data) w = Ok tt (set_heap (insert d data') w)) ∧
    (reentry_free h →
       heap (final (keepAliveFunc h (subscriber data) w)) = <[d := data']> (heap w) ∧
       watchdogs (final (keepAliveFunc h (subscriber data) w)) = watchdogs w ∧
       subscribers (final (keepAliveFunc h (subscriber data) w)) = subscribers w ∧
       calls (final (keepAliveFunc h (subscriber data) w))
         = calls w ++ (if onClientSeen sub
                       then [CallOnClientSeen (subscriber data)] else []) ∧
       consistent (final (keepAliveFunc h (subscriber data) w)) this) ∧
    (∃ w', keepAliveFunc H (subscriber data) w = Ok tt w').
Proof.
  intros [Hwf Hkeys] Hwd Hin Hd Hs.
  pose proof Hwf as (wd0 & Hwd0 & Hnd & Hall & Ht).
  assert (wd0 = wd) as -> by congruence.
  rewrite Forall_forall in Hall.
  destruct (Hall _ Hin) as (data0 & sub0 & Hd0 & Hk0 & Hs0 & Hx & Hdd & Hka & Hr).
  cbn [fst snd] in *.
  assert (data0 = data) as -> by congruence.
  assert (sub0 = sub) as -> by congruence.
  set (w1 := set_heap (insert d (set_lastSeen (now w) data)) w).
  assert (consistent w1 this) as Hcons1.
  { split; [by apply wf_set_lastSeen|]. exact Hkeys. }
  exists (set_lastSeen (now w) data).
  repeat (split; [reflexivity|]).
  pose proof (keepAliveFunc_host h _ sub this d data w Hs Hx Hdd Hd) as Hrun.
  fold w1 in Hrun. fold w1.
  split; [exact Hrun|]. split; [exact Hcons1|].
  split; [intros Hseen; by rewrite Hrun, Hseen|].
  split.
  - intros (_ & _ & Hseen). rewrite Hrun. destruct (onClientSeen sub).
    + rewrite call_out_outside by apply Hseen. norm.
      repeat (split; [done|]). exact Hcons1.
    + cbn [ret final]. rewrite app_nil_r. repeat (split; [done|]). exact Hcons1.
  - rewrite (keepAliveFunc_registered H _ sub this d data w Hs Hx Hdd Hd). by eexists.
Qed.


(** X16.  Registering a subscriber that has none of the registry's
    members with a consistent registry whose counter is below 2^53 and
    unregistering it at once: whenever the two calls return, under a host
    that does not call back into the registry, the table, the timer and
    every subscriber are what they were and the registry is consistent.
    What is left of the registration: [_counter] is one more,
    [_currentTime] is the tick of the call, the entry object that was
    created is still in the heap, and [onClientSeen] has been called if
    the subscriber has one.  With callbacks that return normally the two
    calls return. *)
Theorem register_unregister_round_trip (h : Host E) this s v wd sub w :
  consistent w this → watchdogs w !! this = Some wd →
  _counter wd ≤ MAX_SAFE_INTEGER →
  subscribers w !! s = Some sub → watchdogReset sub = true →
  _watchDog sub = None → _watchDogData sub = None → keepAlive sub = None →
  truthy v = false ∨ isNumber v = true →
  (reentry_free h → ∀ w',
     (addSubscriber h this s v ;;; removeSubscriber this s) w = Ok tt w' →
     ∃ wd' data,
       watchdogs w' !! this = Some wd' ∧
       _watchdogDataMap wd' = _watchdogDataMap wd ∧
       _timer wd' = _timer wd ∧
       _counter wd' = _counter wd + 1 ∧
       _currentTime wd' = now w ∧
       subscribers w' = subscribers w ∧
       heap w !! fresh (dom (heap w)) = None ∧
       heap w' = <[fresh (dom (heap w)) := data]> (heap w) ∧
       key data = _counter wd + 1 ∧ subscriber data = s ∧
       calls w' = calls w ++ (if onClientSeen sub then [CallOnClientSeen s] else []) ∧
       consistent w' this) ∧
  (∃ w', (addSubscriber H this s v ;;; removeSubscriber this s) w = Ok tt w').
Proof.
  intros Hcons Hwd Hmax Hs Hr Hx Hdd Hk Hv. split.
  - intros Hfree w' Hrun.
    assert (follows (addSubscriber h this s v ;;; removeSubscriber this s)
                    (addSubscriber (shadow h) this s v ;;; removeSubscriber this s))
      as Hfollows.
    { apply follows_bind; [by apply addSubscriber_follows | intros _].
      apply follows_refl. }
    apply Hfollows in Hrun.
    destruct (round_trip (shadow h) this s v wd sub w Hcons Hwd Hs Hr Hx Hdd Hk Hv)
      as (w2 & wd2 & data & Hrun2 & Hrest).
    rewrite Hrun2 in Hrun. injection Hrun as <-. by exists wd2, data.
  - destruct (round_trip H this s v wd sub w Hcons Hwd Hs Hr Hx Hdd Hk Hv)
      as (w' & _ & _ & Hrun & _). by exists w'.
Qed.




End Returned.

(** ** A callback that throws *)

Section Interrupted.
Context {E : Type} (h : Host E) (Hfree : reentry_free h).
Implicit Types (w : World E).





End Interrupted.

Section InterruptedSweep.
Context {E : Type} (h : Host E).
Implicit Types (w : World E).


End InterruptedSweep.

Section Stops.
Context {E : Type} (h : Host E).
Implicit Types (w : World E).



End Stops.

(** ** The properties on the sample stores *)

Example nobody_registered_consistent : consistent nobody_registered 0.
Proof.
  split.
  - exists empty_registry. split; [apply nobody_registered_registry|].
    split; [constructor|]. split; [constructor | apply empty_registry_timer_ok].
  - intros wd Hwd. rewrite (proj1 nobody_registered_registry) in Hwd.
    injection Hwd as <-. split; constructor.
Qed.

Example two_registered_consistent t : consistent (two_registered t) 0.
Proof.
  split; [apply two_registered_wf|].
  intros wd Hwd. rewrite two_registered_registry in Hwd. injection Hwd as <-.
  split.
  - repeat apply Forall_cons_2; [| |apply Forall_nil_2]; cbn; lia.
  - cbn. repeat constructor.
Qed.


Definition registry_of_one : WatchDog :=
  {| _watchdogDataMap := [(1, 0)]; _counter := 1; _currentTime := 0;
     _timer := Some (setInterval 0 1000) |}.




(** [nobody_registered] after the registration of its first subscriber. *)
Definition one_registered : World (list Seen) :=
  final (addSubscriber (probe 0) 0 0 (JNumber 50) nobody_registered).

Example one_registered_store :
  watchdogs one_registered !! 0 = Some registry_of_one ∧
  subscribers one_registered !! 1 = Some (unregistered_subscriber true).
Proof. split; vm_compute; reflexivity. Qed.

Example one_registered_consistent : consistent one_registered 0.
Proof.
  destruct (addSubscriber_next_key (probe 0) 0 0 (JNumber 50) empty_registry
              (unregistered_subscriber false) nobody_registered)
    as (n & _ & _ & Hadd).
  - apply nobody_registered_consistent.
  - apply nobody_registered_registry.
  - apply nobody_registered_registry.
  - reflexivity.
  - reflexivity.
  - right. reflexivity.
  - unfold one_registered. rewrite Hadd. cbn [final].
    apply consistent_added.
    + apply nobody_registered_consistent.
    + apply nobody_registered_registry.
    + apply nobody_registered_registry.
    + reflexivity.
    + reflexivity.
    + apply nobody_registered_consistent.
Qed.

(** [one_registered] after the registration of its second subscriber. *)
Definition both_registered : World (list Seen) :=
  final (addSubscriber (probe 0) 0 1 (JNumber 50) one_registered).

Example one_registered_second :
  addSubscriber (probe 0) 0 1 (JNumber 50) one_registered = Ok 2 both_registered.
Proof. vm_compute. reflexivity. Qed.

(** [one_registered] after its second subscriber has been registered and
    unregistered. *)
Definition there_and_back : World (list Seen) :=
  final ((addSubscriber (probe 0) 0 1 (JNumber 50) ;;; removeSubscriber 0 1) one_registered).

Example one_registered_round_trip :
  (addSubscriber (probe 0) 0 1 (JNumber 50) ;;; removeSubscriber 0 1) one_registered
  = Ok tt there_and_back.
Proof. vm_compute. reflexivity. Qed.



(** A host whose [watchdogReset] throws. *)
Definition throwing_reset : Host (list Seen) :=
  {| run_timeout_listeners := λ _, ret tt;
     run_watchdogReset := λ _, throw (Error "reset failed");
     run_onClientSeen := λ _, ret tt |}.

(** The first [watchdogReset] that throws ends the pass: the second expired
    subscriber stays registered. *)
Example throwing_reset_ends_the_pass :
  returns (_visit_subscriber throwing_reset 0 two_expiring) = false ∧
  (_watchdogDataMap <$>
     watchdogs (final (_visit_subscriber throwing_reset 0 two_expiring)) !! 0)
    = Some [(2, 1)] ∧
  (keepAlive <$>
     subscribers (final (_visit_subscriber throwing_reset 0 two_expiring)) !! 1)
    = Some (Some 1) ∧
  calls (final (_visit_subscriber throwing_reset 0 two_expiring))
    = calls two_expiring ++ [CallTimeout [0; 1]; CallWatchdogReset 0].
Proof. repeat split; vm_compute; reflexivity. Qed.

(** A host whose [watchdogReset] registers the subscriber again. *)
Definition registering_reset : Host (list Seen) :=
  {| run_timeout_listeners := λ _, ret tt;
     run_watchdogReset := λ s, addSubscriber (probe 0) 0 s (JNumber 50) ;;; ret tt;
     run_onClientSeen := λ _, ret tt |}.

(** Such a [watchdogReset] finds its subscriber unregistered: the
    registrations return, and after the sweep both subscribers are in the
    table again, under new keys. *)
Example reset_that_registers_again :
  returns (_visit_subscriber registering_reset 0 two_expiring) = true ∧
  (Object_keys ∘ _watchdogDataMap <$>
     watchdogs (final (_visit_subscriber registering_reset 0 two_expiring)) !! 0)
    = Some [3; 4] ∧
  (_timer <$>
     watchdogs (final (_visit_subscriber registering_reset 0 two_expiring)) !! 0)
    = Some (Some (setInterval 0 1000)).
Proof. repeat split; vm_compute; reflexivity. Qed.

(** X1, witness: the second registration with a registry gets key 2, and
    its entry comes after that of the first. *)
Lemma registration_appends_fresh_key_witness :
  ∃ wd',
    watchdogs both_registered !! 0 = Some wd' ∧
    _watchdogDataMap wd' = [(1, 0); (2, fresh (dom (heap one_registered)))] ∧
    subscriberCount 0 both_registered = Ok 2 both_registered.
Proof.
  destruct (registration_appends_fresh_key (probe 0) (probe 0) 0 1 (JNumber 50)
              registry_of_one (unregistered_subscriber true) one_registered)
    as [Hreturned _].
  - apply one_registered_consistent.
  - apply one_registered_store.
  - by vm_compute.
  - apply one_registered_store.
  - destruct (Hreturned (quiet_reentry_free (probe 0)) 2 both_registered
                one_registered_second)
      as (_ & _ & wd' & data & Hwd' & _ & Hmap & Hcount & _).
    exists wd'. split; [exact Hwd'|]. split; [exact Hmap | exact Hcount].
Defined.

(** X2, witness: the registry is consistent after its first registration. *)
Lemma registration_keeps_consistent_witness :
  consistent (final (addSubscriber (probe 0) 0 0 (JNumber 50) nobody_registered)) 0.
Proof.
  refine (registration_keeps_consistent (probe 0) 0 0 0 (JNumber 50) empty_registry
            (unregistered_subscriber false) nobody_registered
            nobody_registered_consistent (proj1 nobody_registered_registry)
            (proj2 nobody_registered_registry) eq_refl eq_refl _
            nobody_registered_consistent).
  right. reflexivity.
Defined.

(** X4, witness: unregistering the first of two subscribers. *)
Lemma unregister_decrements_count_witness :
  ∃ w' wd',
    removeSubscriber 0 0 (two_registered 0) = Ok tt w' ∧
    watchdogs w' !! 0 = Some wd' ∧ _counter wd' = 2 ∧
    hasOwnProperty (_watchdogDataMap wd') 1 = false.
Proof.
  destruct (unregister_decrements_count 0 registry_of_two 1 0 first_data (two_registered 0))
    as (w' & wd' & Hrun & _ & Hwd' & Hc & Hown & _).
  - apply two_registered_consistent.
  - apply two_registered_registry.
  - by left.
  - apply two_registered_first.
  - exists w', wd'. split; [exact Hrun|]. split; [exact Hwd'|].
    split; [exact Hc | exact Hown].
Defined.

(** X5, witness: the sweep of [two_expiring]. *)
Lemma sweep_keeps_consistent_witness :
  consistent after_sweep 0 ∧
  ∃ wd', watchdogs after_sweep !! 0 = Some wd' ∧ _counter wd' = 2.
Proof.
  destruct (sweep_keeps_consistent (probe 0) (probe 0) 0 registry_of_two two_expiring)
    as [Hreturned _].
  - apply two_registered_consistent.
  - apply two_registered_registry.
  - destruct (Hreturned (quiet_reentry_free (probe 0)) after_sweep two_expiring_swept)
      as (Hcons & wd' & Hwd' & Hc & _).
    split; [exact Hcons|]. exists wd'. split; [exact Hwd' | exact Hc].
Defined.

(** X6, witness: a registry without subscriber passes [shutdown]; one with
    two subscribers does not. *)
Lemma shutdown_reports_leaks_witness :
  shutdown 0 nobody_registered = Ok tt nobody_registered ∧
  shutdown 0 (two_registered 0) ≠ Ok tt (two_registered 0).
Proof.
  split.
  - destruct (shutdown_reports_leaks 0 empty_registry nobody_registered
                (proj1 nobody_registered_registry)) as (_ & Hiff & _).
    apply Hiff. split; reflexivity.
  - destruct (shutdown_reports_leaks 0 registry_of_two (two_registered 0)
                (two_registered_registry 0)) as (_ & Hiff & _).
    intros Hok. apply Hiff in Hok as [Htm _]. discriminate Htm.
Defined.

(** X7, witness: a sweep of registry 0 of [two_registries] leaves
    registry 1 as it is. *)
Lemma registries_are_independent_witness :
  watchdogs (final (_visit_subscriber (probe 0) 0 two_registries)) !! 1
  = watchdogs two_registries !! 1.
Proof.
  assert ((1 : N) ≠ 0) as Hne by lia.
  destruct (registries_are_independent (probe 0) 0 1 two_registries Hne)
    as (_ & _ & Hsweep).
  exact Hsweep.
Defined.

(** X8, witness: the keep-alive of the second subscriber, which has an
    [onClientSeen], at tick 30. *)
Lemma keepAlive_refreshes_lastSeen_witness :
  ∃ data',
    heap (final (keepAliveFunc (probe 0) 1 (two_registered 30))) !! 1 = Some data' ∧
    lastSeen data' = now (two_registered 30) ∧
    calls (final (keepAliveFunc (probe 0) 1 (two_registered 30)))
      = calls (two_registered 30) ++ [CallOnClientSeen 1].
Proof.
  destruct (keepAlive_refreshes_lastSeen (probe 0) (probe 0) 0 registry_of_two 2 1
              second_data (registered_subscriber 0 1 1 true) (two_registered 30))
    as (data' & Hseen & _ & _ & _ & _ & _ & _ & _ & Hfree & _).
  - apply two_registered_consistent.
  - apply two_registered_registry.
  - right. by left.
  - apply two_registered_second.
  - apply two_registered_second.
  - destruct (Hfree (quiet_reentry_free (probe 0))) as (Hheap & _ & _ & Hcalls & _).
    exists data'. split; [|split; [exact Hseen | exact Hcalls]].
    change (subscriber second_data) with 1 in Hheap.
    rewrite Hheap. apply lookup_insert_eq.
Defined.

(** X9, witness: after its registration the subscriber's [keepAlive] is the
    keep-alive callback. *)
Lemma keepAlive_member_follows_registration_witness :
  call_keepAlive (probe 0) 0
    (final (addSubscriber (probe 0) 0 0 (JNumber 50) nobody_registered))
  = keepAliveFunc (probe 0) 0
      (final (addSubscriber (probe 0) 0 0 (JNumber 50) nobody_registered)).
Proof.
  destruct (proj1 (keepAlive_member_follows_registration (probe 0) 0 0 nobody_registered)
              (JNumber 50) 1
              (final (addSubscriber (probe 0) 0 0 (JNumber 50) nobody_registered)))
    as (sub1 & _ & _ & _ & Hcall).
  - vm_compute. reflexivity.
  - exact Hcall.
Defined.




(** X13, witness: a sweep at tick 10, when nobody has expired. *)
Lemma sweep_without_expiry_is_silent_witness :
  ∃ w' wd',
    _visit_subscriber (probe 0) 0 (two_registered 10) = Ok tt w' ∧
    calls w' = calls (two_registered 10) ∧
    watchdogs w' !! 0 = Some wd' ∧
    _watchdogDataMap wd' = [(1, 0); (2, 1)].
Proof.
  destruct (sweep_without_expiry_is_silent (probe 0) 0 registry_of_two (two_registered 10))
    as (w' & wd' & Hrun & Hcalls & _ & _ & Hwd' & Hmap & _).
  - apply two_registered_wf.
  - apply two_registered_registry.
  - vm_compute. reflexivity.
  - exists w', wd'. split; [exact Hrun|]. split; [exact Hcalls|].
    split; [exact Hwd' | exact Hmap].
Defined.

(** X14, witness: a string is not accepted as a timeout. *)
Lemma registration_rejects_bad_arguments_witness :
  ∃ w', addSubscriber (probe 0) 0 0 (JString "soon") nobody_registered
        = Throw (AssertionError " invalid timeout ") w'.
Proof.
  destruct (registration_rejects_bad_arguments (probe 0) 0 0 (JString "soon")
              empty_registry (unregistered_subscriber false) nobody_registered
              (proj1 nobody_registered_registry) (proj2 nobody_registered_registry))
    as [Hbad _].
  eexists. apply Hbad; reflexivity.
Defined.

(** X15, witness: the first subscriber of [two_expiring] still has its
    [watchdogReset] after the sweep that evicts it. *)
Lemma subscriber_members_are_kept_witness :
  ∃ sub', subscribers (final (_visit_subscriber (probe 0) 0 two_expiring)) !! 0 = Some sub' ∧
          watchdogReset sub' = true.
Proof.
  destruct (subscriber_members_are_kept (probe 0) 0 0 (registered_subscriber 0 0 0 false)
              two_expiring (proj2 (two_registered_first 51)))
    as (_ & _ & _ & sub' & Hs & Hr & _).
  exists sub'. split; [exact Hs | exact Hr].
Defined.

(** X16, witness: registering and unregistering the second subscriber of
    [one_registered], which has an [onClientSeen]. *)
Lemma register_unregister_round_trip_witness :
  ∃ wd',
    watchdogs there_and_back !! 0 = Some wd' ∧
    _watchdogDataMap wd' = [(1, 0)] ∧ _timer wd' = Some (setInterval 0 1000) ∧
    _counter wd' = 2 ∧
    subscribers there_and_back = subscribers one_registered ∧
    calls there_and_back = calls one_registered ++ [CallOnClientSeen 1].
Proof.
  destruct (register_unregister_round_trip (probe 0) (probe 0) 0 1 (JNumber 50)
              registry_of_one (unregistered_subscriber true) one_registered)
    as [Hreturned _].
  - apply one_registered_consistent.
  - apply one_registered_store.
  - by vm_compute.
  - apply one_registered_store.
  - reflexivity.
  - reflexivity.
  - reflexivity.
  - reflexivity.
  - right. reflexivity.
  - destruct (Hreturned (quiet_reentry_free (probe 0)) there_and_back
                one_registered_round_trip)
      as (wd' & data & Hwd' & Hmap & Htm & Hc & _ & Hsubs & _ & _ & _ & _ & Hcalls & _).
    exists wd'. split; [exact Hwd'|]. split; [exact Hmap|]. split; [exact Htm|].
    split; [exact Hc|]. split; [exact Hsubs | exact Hcalls].
Defined.




(** X20, witness: starting and stopping the timer of an empty registry. *)
Lemma timer_starts_and_stops_once_witness :
  (_start_timer 0 ;;; _stop_timer 0) nobody_registered = Ok tt nobody_registered.
Proof.
  destruct (timer_starts_and_stops_once 0 empty_registry nobody_registered
              (proj1 nobody_registered_registry)) as (_ & _ & Hround).
  apply Hround. reflexivity.
Defined.


